(** * dependency-tracker: the module catalog and the import resolver

    A shallow embedding of [generate_obsidian_notes.py].  The script scans a
    project for Python files, builds a table from dotted module names to note
    paths ([get_internal_modules]), and classifies the imports of every file
    as internal or external ([parse_imports], with its nested [is_internal]).

    Strings are byte strings, a [dict] is an insertion-ordered association
    list (the resolver scans its keys in order), a [set] of strings is a
    [gset string], and the effects of the script (the two output channels, the
    written notes, raised exceptions) are threaded through a small monad. *)

From Stdlib Require Import Ascii String List Bool Arith Lia.
From stdpp Require Import base strings gmap list sorting.
Import ListNotations.

(** ** Python strings *)

Module PyStr.

(** Truth value of a [str]: only the empty string is false. *)
Definition truthy (s : string) : bool :=
  match s with EmptyString => false | String _ _ => true end.

(** [s.startswith(pre)] *)
Definition startswith (s pre : string) : bool := String.prefix pre s.

(** [s.endswith(suf)]: some tail of [s] is [suf]. *)
Fixpoint endswith (s suf : string) : bool :=
  if String.eqb s suf then true
  else match s with
       | EmptyString => false
       | String _ s' => endswith s' suf
       end.

(** [s.split(sep)[0]] for a one-character separator: the text before the
    first separator, or all of [s] when there is none. *)
Fixpoint split_head (sep : ascii) (s : string) : string :=
  match s with
  | EmptyString => EmptyString
  | String c s' => if Ascii.eqb c sep then EmptyString
                   else String c (split_head sep s')
  end.

(** [s.replace(a, b)] for one-character [a] and [b]. *)
Fixpoint replace (a b : ascii) (s : string) : string :=
  match s with
  | EmptyString => EmptyString
  | String c s' => String (if Ascii.eqb c a then b else c) (replace a b s')
  end.

(** [sep.join(ls)] *)
Definition join (sep : string) (ls : list string) : string :=
  String.concat sep ls.

(** [c in s] for a character. *)
Fixpoint contains_char (c : ascii) (s : string) : bool :=
  match s with
  | EmptyString => false
  | String a s' => Ascii.eqb a c || contains_char c s'
  end.

(** Cut [s] at its last dot: [(s[:i], s[i:])] for [i = s.rfind('.')],
    [None] when [s] has no dot. *)
Fixpoint rpartition_dot (s : string) : option (string * string) :=
  match s with
  | EmptyString => None
  | String c s' =>
      match rpartition_dot s' with
      | Some (pre, suf) => Some (String c pre, suf)
      | None => if Ascii.eqb c "." then Some (EmptyString, String c s')
                else None
      end
  end.

Definition newline : string := String (ascii_of_nat 10) EmptyString.
Definition dquote : string := String (ascii_of_nat 34) EmptyString.

End PyStr.

(** ** Python dictionaries with string keys and values

    Insertion ordered: assigning to a key that is present keeps its place,
    a new key goes to the end. *)

Module PyDict.

Definition dict : Type := list (string * string).

Definition keys (d : dict) : list string := map fst d.

(** [k in d] *)
Definition contains (d : dict) (k : string) : bool :=
  existsb (String.eqb k) (keys d).

(** [d.get(k)] *)
Fixpoint get (d : dict) (k : string) : option string :=
  match d with
  | [] => None
  | (k', v) :: d' => if String.eqb k k' then Some v else get d' k
  end.

(** [d[k] = v] *)
Fixpoint set (d : dict) (k v : string) : dict :=
  match d with
  | [] => [(k, v)]
  | (k', v') :: d' => if String.eqb k k' then (k', v) :: d'
                      else (k', v') :: set d' k v
  end.

End PyDict.

(** ** pathlib paths

    A path is its anchor (["/"] when absolute, empty otherwise) and its
    components.  A path yielded by [project_root.rglob] is kept as the
    components below the project root, which is also what
    [filepath.relative_to(project_root)] returns. *)

Module Pathlib.

Record Path : Type := mkPath { anchor : string; comps : list string }.

(** [p.parts] *)
Definition parts (p : Path) : list string :=
  if PyStr.truthy (anchor p) then anchor p :: comps p else comps p.

(** [p.name] *)
Definition name (p : Path) : string := default EmptyString (last (comps p)).

(** [p.parent] *)
Definition parent (p : Path) : Path := mkPath (anchor p) (removelast (comps p)).

(** [p / rel] for a relative [rel] *)
Definition joinpath (p : Path) (rel : list string) : Path :=
  mkPath (anchor p) (comps p ++ rel).

Definition relative (rel : list string) : Path := mkPath EmptyString rel.

(** [p.as_posix()], also [str(p)] on a POSIX system *)
Definition as_posix (p : Path) : string :=
  match anchor p, comps p with
  | EmptyString, [] => "."
  | a, cs => a +:+ PyStr.join "/" cs
  end.

(** The file name of [p.with_suffix(new)].  [p.suffix] is the text from the
    last dot of the name on, unless that dot is its first or its last
    character; it is cut off and [new] is put in its place. *)
Definition with_suffix_name (nm new : string) : string :=
  match PyStr.rpartition_dot nm with
  | Some (pre, suf) =>
      if PyStr.truthy pre && (1 <? String.length suf) then pre +:+ new
      else nm +:+ new
  | None => nm +:+ new
  end.

(** [p.with_suffix(new)] *)
Definition with_suffix (p : Path) (new : string) : Path :=
  mkPath (anchor p)
    (removelast (comps p) ++ [with_suffix_name (name p) new]).

(** The entries that [root.rglob("*.py")] yields, out of all the entries
    below [root]: those whose name ends in [.py]. *)
Definition rglob_py (tree : list (list string)) : list (list string) :=
  filter (fun rel => PyStr.endswith (name (relative rel)) ".py" = true) tree.

End Pathlib.

Import Pathlib.
Abbreviation dict := PyDict.dict.

(** ** Module Catalog Builder: [get_internal_modules] *)

(** The two [continue] guards at the top of the loop body. *)
Definition skipped (project_root : Path) (rel : list string) : bool :=
  let filepath := joinpath project_root rel in
  bool_decide (".venv" ∈ parts filepath)
  || PyStr.startswith (name filepath) "__".

(** [mod_name] as the loop body computes it. *)
Definition mod_name_of (project_root : Path) (rel : list string) : string :=
  let filepath := joinpath project_root rel in
  let rel_path := relative rel in
  if String.eqb (name filepath) "__init__.py" then
    match comps (parent rel_path) with
    | [] => name project_root
    | _ => PyStr.replace "/" "." (as_posix (parent rel_path))
    end
  else PyStr.replace "/" "." (as_posix (with_suffix rel_path "")).

(** The note path stored for the file: [rel_path.with_suffix("").as_posix()]. *)
Definition note_path_of (rel : list string) : string :=
  as_posix (with_suffix (relative rel) "").

(** One turn of the loop: the assignment [modules[mod_name] = ...] it makes,
    or [None] when the file is skipped. *)
Definition module_entry (project_root : Path) (rel : list string)
  : option (string * string) :=
  if skipped project_root rel then None
  else Some (mod_name_of project_root rel, note_path_of rel).

Definition get_internal_modules_step (project_root : Path)
    (modules : dict) (rel : list string) : dict :=
  match module_entry project_root rel with
  | None => modules
  | Some (mod_name, note) => PyDict.set modules mod_name note
  end.

(** [tree] lists the entries below the project root in traversal order. *)
Definition get_internal_modules (project_root : Path)
    (tree : list (list string)) : dict :=
  fold_left (get_internal_modules_step project_root) (rglob_py tree) [].

(** ** Import Resolver: the syntax tree

    [parse_imports] looks at the parsed module only through [ast.walk], which
    yields every node of the tree once; of a node it reads the type and, for
    the two import statements, the fields below.  A parsed module is therefore
    kept as the sequence of nodes that [ast.walk] yields. *)

Record alias : Type := mkAlias { alias_name : string; asname : option string }.

Inductive node : Type :=
| Import (names : list alias)
| ImportFrom (module : option string) (names : list alias) (level : nat)
| OtherNode.

Definition ast : Type := list node.

(** The accumulators [internal_deps] and [external_deps]. *)
Record deps : Type := mkDeps {
  internal_deps : gset string;
  external_deps : gset string
}.

Definition no_deps : deps := mkDeps ∅ ∅.

Definition add_internal (m : string) (d : deps) : deps :=
  mkDeps ({[m]} ∪ internal_deps d) (external_deps d).

Definition add_external (m : string) (d : deps) : deps :=
  mkDeps (internal_deps d) ({[m]} ∪ external_deps d).

(** The nested function [is_internal], with the catalog it closes over as a
    parameter. *)
Definition is_internal (internal_modules : dict) (module_str : string)
  : option string :=
  if PyDict.contains internal_modules module_str then Some module_str
  else List.find (fun key => PyStr.endswith key ("." +:+ module_str))
         (PyDict.keys internal_modules).

(** [if internal_match: yes(internal_match) else: no]: [None] and the empty
    string are both false. *)
Definition if_match {A : Type} (internal_match : option string)
    (yes : string -> A) (no : A) : A :=
  match internal_match with
  | Some m => if PyStr.truthy m then yes m else no
  | None => no
  end.

(** Body of [for alias in node.names] under [ast.Import]. *)
Definition visit_import_alias (internal_modules : dict) (d : deps) (a : alias)
  : deps :=
  let mod_ := alias_name a in
  if_match (is_internal internal_modules mod_)
    (fun internal_match => add_internal internal_match d)
    (add_external (PyStr.split_head "." mod_) d).

(** [mod_full]: both branches of the test on [level] compute the same. *)
Definition mod_full_of (module : option string) (level : nat) : string :=
  if 0 <? level then
    match module with Some m => if PyStr.truthy m then m else "" | None => "" end
  else
    match module with Some m => if PyStr.truthy m then m else "" | None => "" end.

(** Body of [for alias in node.names] under [ast.ImportFrom]. *)
Definition visit_from_alias (internal_modules : dict) (mod_full : string)
    (d : deps) (a : alias) : deps :=
  if String.eqb (alias_name a) "*" then d
  else
    let candidate :=
      if PyStr.truthy mod_full then mod_full +:+ "." +:+ alias_name a
      else alias_name a in
    if_match (is_internal internal_modules candidate)
      (fun internal_match => add_internal internal_match d)
      (if PyStr.truthy mod_full then
         if_match (is_internal internal_modules mod_full)
           (fun internal_match => add_internal internal_match d)
           (add_external (PyStr.split_head "." mod_full) d)
       else add_external (PyStr.split_head "." (alias_name a)) d).

(** Body of [for node in ast.walk(tree)]. *)
Definition visit_node (internal_modules : dict) (d : deps) (n : node) : deps :=
  match n with
  | Import names => fold_left (visit_import_alias internal_modules) names d
  | ImportFrom module names level =>
      fold_left (visit_from_alias internal_modules (mod_full_of module level))
        names d
  | OtherNode => d
  end.

(** The part of [parse_imports] after parsing: both sets start empty and the
    loop over [ast.walk(tree)] fills them. *)
Definition collect_imports (internal_modules : dict) (tree : ast) : deps :=
  fold_left (visit_node internal_modules) tree no_deps.

(** ** Effects of the script

    A procedure reads and changes the [world] (what was printed on each
    channel, the notes written so far) and either returns or raises. *)

Inductive exn_class : Type :=
| SyntaxError                     (* [SyntaxError] and its subclasses *)
| OtherException (cls : string)   (* any other subclass of [Exception] *)
| NotAnException (cls : string).  (* [BaseException] outside [Exception] *)

(** An exception object: its class and [str(e)]. *)
Record exn : Type := mkExn { exn_cls : exn_class; exn_str : string }.

Definition isinstance_Exception (e : exn) : bool :=
  match exn_cls e with NotAnException _ => false | _ => true end.

Definition isinstance_SyntaxError (e : exn) : bool :=
  match exn_cls e with SyntaxError => true | _ => false end.

Inductive outcome (A : Type) : Type :=
| Returned (a : A)
| Raised (e : exn).
Arguments Returned {A} a.
Arguments Raised {A} e.

Record world : Type := mkWorld {
  stdout : list string;           (* lines printed to [sys.stdout] *)
  stderr : list string;           (* lines printed to [sys.stderr] *)
  notes : gmap string string      (* files written, by path *)
}.

Definition M (A : Type) : Type := world -> outcome A * world.

#[global] Instance M_ret : MRet M := fun A a w => (Returned a, w).

#[global] Instance M_bind : MBind M := fun A B k c w =>
  match c w with
  | (Returned a, w') => k a w'
  | (Raised e, w') => (Raised e, w')
  end.

(** A call into the environment, which leaves the [world] alone. *)
Definition call {A : Type} (o : outcome A) : M A := fun w => (o, w).

(** [try: x = c / except <catches> as e: return handler(e)], then [k x]. *)
Definition try_except {A B : Type} (c : M A) (catches : exn -> bool)
    (handler : exn -> M B) (k : A -> M B) : M B := fun w =>
  match c w with
  | (Returned a, w') => k a w'
  | (Raised e, w') => if catches e then handler e w' else (Raised e, w')
  end.

(** [print(line)] and [print(line, file=sys.stderr)] *)
Definition print (line : string) : M unit := fun w =>
  (Returned tt, mkWorld (stdout w ++ [line]) (stderr w) (notes w)).

Definition print_stderr (line : string) : M unit := fun w =>
  (Returned tt, mkWorld (stdout w) (stderr w ++ [line]) (notes w)).

(** [path.write_text(content)], after the [mkdir] of its parent, on a vault
    that accepts every write. *)
Definition write_text (path : Path) (content : string) : M unit := fun w =>
  (Returned tt, mkWorld (stdout w) (stderr w) (<[as_posix path := content]> (notes w))).

(** [for x in xs: body(x)] *)
Fixpoint for_each {A : Type} (xs : list A) (body : A -> M unit) : M unit :=
  match xs with
  | [] => mret tt
  | x :: xs' => body x ;; for_each xs' body
  end.

(** ** The rendering side: [get_color_for_node] and [write_markdown_nodes] *)

Definition FOLDER_COLOR_MAP : gmap string string :=
  list_to_map [("base", "#f8b195"); ("bots", "#f67280");
               ("utils", "#c06c84"); ("root", "#355c7d")].

Definition get_color_for_node (note_rel_path : string) : string :=
  let parts0 := PyStr.split_head "/" note_rel_path in
  let key := if PyStr.truthy parts0 then parts0 else "root" in
  default "#355c7d" (FOLDER_COLOR_MAP !! key).

(** [a <= b] on [str]: lexicographic, character by character. *)
Definition str_le (a b : string) : Prop := String.leb a b = true.

#[global] Instance str_le_dec : RelDecision str_le :=
  fun a b => bool_eq_dec (String.leb a b) true.

(** [sorted(s)] for a set of strings. *)
Definition sorted (s : gset string) : list string :=
  merge_sort str_le (elements s).

Definition set_truthy (s : gset string) : bool := negb (bool_decide (s = ∅)).

(** The lines of a note, from the header to the two dependency sections. *)
Definition note_lines (internal_modules : dict) (rel_path : Path)
    (node_color : string) (d : deps) : list string :=
  ["---"; "color: " +:+ PyStr.dquote +:+ node_color +:+ PyStr.dquote; "---";
   ""; "# " +:+ as_posix rel_path; ""]
  ++ (if set_truthy (internal_deps d) then
        ["## Internal Dependencies"]
        ++ map (fun dep =>
                  let link := default dep (PyDict.get internal_modules dep) in
                  "- [[" +:+ link +:+ "]]")
             (sorted (internal_deps d))
        ++ [""]
      else [])
  ++ (if set_truthy (external_deps d) then
        ["## External Dependencies"]
        ++ map (fun dep => "- " +:+ dep) (sorted (external_deps d))
        ++ [""]
      else []).

Section Script.

(** The environment: [Path.read_text] on the files of the project and
    [ast.parse(source, filename)]. *)
Variable read_text : Path -> outcome string.
Variable ast_parse : string -> string -> outcome ast.

Definition parse_imports (filepath : Path) (internal_modules : dict)
  : M deps :=
  try_except (call (read_text filepath)) isinstance_Exception
    (fun e =>
       print_stderr ("Error reading " +:+ as_posix filepath +:+ ": "
                     +:+ exn_str e) ;;
       mret no_deps)
    (fun source =>
       try_except (call (ast_parse source (as_posix filepath)))
         isinstance_SyntaxError
         (fun e =>
            print_stderr ("Syntax error in " +:+ as_posix filepath +:+ ": "
                          +:+ exn_str e) ;;
            mret no_deps)
         (fun tree => mret (collect_imports internal_modules tree))).

(** Body of the loop of [write_markdown_nodes].  The [mod_name] it computes
    is never read and is left out. *)
Definition write_node (project_root vault_root : Path)
    (internal_modules : dict) (rel : list string) : M unit :=
  if skipped project_root rel then mret tt
  else
    let filepath := joinpath project_root rel in
    let rel_path := relative rel in
    let note_rel := with_suffix rel_path ".md" in
    let note_rel_path := as_posix note_rel in
    let note_full_path := joinpath vault_root (comps note_rel) in
    let node_color := get_color_for_node note_rel_path in
    d ← parse_imports filepath internal_modules;
    let content :=
      PyStr.join PyStr.newline
        (note_lines internal_modules rel_path node_color d) in
    write_text note_full_path content ;;
    print ("Generated node: " +:+ as_posix note_full_path).

Definition write_markdown_nodes (project_root vault_root : Path)
    (tree : list (list string)) : M unit :=
  let internal_modules := get_internal_modules project_root tree in
  for_each (rglob_py tree)
    (write_node project_root vault_root internal_modules).




End Script.

(** ** Vocabulary of the properties *)

(** [key] ends with a dot followed by [candidate]. *)
Definition dot_suffix (candidate key : string) : Prop :=
  exists pre, key = pre +:+ "." +:+ candidate.

(** The internal-match rule as three cases: the candidate is a key; or it is
    not and [key] is the first key, in the order of the catalog, that ends
    with a dot followed by the candidate; or there is neither. *)
Inductive internal_match_rule (catalog : dict) (candidate : string)
  : option string -> Prop :=
| match_exact :
    candidate ∈ PyDict.keys catalog ->
    internal_match_rule catalog candidate (Some candidate)
| match_suffix (before after : list string) (key : string) :
    candidate ∉ PyDict.keys catalog ->
    PyDict.keys catalog = before ++ key :: after ->
    Forall (fun k => ~ dot_suffix candidate k) before ->
    dot_suffix candidate key ->
    internal_match_rule catalog candidate (Some key)
| match_none :
    candidate ∉ PyDict.keys catalog ->
    Forall (fun k => ~ dot_suffix candidate k) (PyDict.keys catalog) ->
    internal_match_rule catalog candidate None.

(** A name without a dot, such as the name of a module at the project root. *)
Definition dot_free (s : string) : Prop := PyStr.contains_char "." s = false.

(** Every internal name is a catalog key and every external name is the
    first dotted component of something, hence without a dot. *)
Definition deps_inv (catalog : dict) (d : deps) : Prop :=
  (forall k, k ∈ internal_deps d -> k ∈ PyDict.keys catalog)
  /\ (forall x, x ∈ external_deps d -> dot_free x).

(** A node that adds nothing to a file with no other imports: anything but
    an import statement, or a from-import of the wildcard alone. *)
Definition wildcard_only (n : node) : Prop :=
  n = OtherNode
  \/ exists module asn level, n = ImportFrom module [mkAlias "*" asn] level.


(** A path component holds no separator. *)
Definition slash_free (c : string) : Prop := PyStr.contains_char "/" c = false.

(** The eligibility filter of the catalog builder. *)
Definition eligible (project_root : Path) (rel : list string) : Prop :=
  PyStr.endswith (name (relative rel)) ".py" = true
  /\ (".venv" ∉ parts (joinpath project_root rel))
  /\ PyStr.startswith (name (relative rel)) "__" = false.

(** The entry of [tree] at [rel] reaches the assignment in the loop of
    [get_internal_modules]. *)
Definition produces_entry (project_root : Path) (tree : list (list string))
    (rel : list string) : Prop :=
  rel ∈ rglob_py tree /\ is_Some (module_entry project_root rel).

(** A package-initializer file. *)
Definition is_initializer (rel : list string) : Prop :=
  name (relative rel) = "__init__.py".

(** ** A small project used in the examples below

    [/home/dev/proj] holds [settings.py], [main.py] and the package [pkg] with
    [pkg/__init__.py] and [pkg/mod.py]. *)

Definition ex_root : Path := mkPath "/" ["home"; "dev"; "proj"].

Definition ex_tree : list (list string) :=
  [["settings.py"]; ["main.py"]; ["pkg"; "__init__.py"]; ["pkg"; "mod.py"]].

Definition ex_catalog : dict := get_internal_modules ex_root ex_tree.

Definition ex_world : world := mkWorld [] [] ∅.

Definition plain (nm : string) : alias := mkAlias nm None.

(** [main.py] reads

      import settings
      import settings.local

    and [ast.walk] yields the module, the two statements and their aliases. *)
Definition ex_overlap_source : string :=
  "import settings" +:+ PyStr.newline +:+ "import settings.local".

Definition ex_overlap_ast : ast :=
  [OtherNode; Import [plain "settings"]; Import [plain "settings.local"];
   OtherNode; OtherNode].

(** A file with nothing but [from pkg import *]. *)
Definition ex_wildcard_source : string := "from pkg import *".

Definition ex_wildcard_ast : ast :=
  [OtherNode; ImportFrom (Some "pkg") [plain "*"] 0; OtherNode].


(** An environment for the example project: [settings.py] cannot be read,
    [pkg/mod.py] is not valid Python, every other file reads and parses. *)
Definition ex_read_text : Path -> outcome string :=
  fun p =>
    if String.eqb (as_posix p) "/home/dev/proj/settings.py"
    then Raised (mkExn (OtherException "PermissionError") "Permission denied")
    else Returned ex_overlap_source.

Definition ex_ast_parse : string -> string -> outcome ast :=
  fun _ filename =>
    if String.eqb filename "/home/dev/proj/pkg/mod.py"
    then Raised (mkExn SyntaxError "invalid syntax")
    else Returned ex_overlap_ast.

Definition ex_vault : Path := mkPath "/" ["home"; "dev"; "vault"].

(** An environment in which every file reads as [source] and parses as
    [tree]. *)
Definition reads_as (source : string) : Path -> outcome string :=
  fun _ => Returned source.

Definition parses_as (tree : ast) : string -> string -> outcome ast :=
  fun _ _ => Returned tree.

(** ** The entry point

    The block under [if __name__ == "__main__"], after the arguments are
    parsed and the two paths resolved; [is_dir] is [Path.is_dir] on the file
    system the script runs on. *)

Definition raise {A : Type} (e : exn) : M A := fun w => (Raised e, w).

(** [SystemExit(msg)], which is not a subclass of [Exception]. *)
Definition SystemExit (msg : string) : exn :=
  mkExn (NotAnException "SystemExit") msg.

Section Entry.

Variable read_text : Path -> outcome string.
Variable ast_parse : string -> string -> outcome ast.
Variable is_dir : Path -> bool.

Definition main (project_root vault_root : Path) (tree : list (list string))
  : M unit :=
  if negb (is_dir project_root) then
    raise (SystemExit ("프로젝트 경로를 찾을 수 없습니다: "
                       +:+ as_posix project_root))
  else if negb (is_dir vault_root) then
    raise (SystemExit ("Vault 경로를 찾을 수 없습니다: "
                       +:+ as_posix vault_root))
  else write_markdown_nodes read_text ast_parse project_root vault_root tree.

End Entry.

(** ** Vocabulary of the further properties *)

(** Both sets of [d1] joined with those of [d2]. *)
Definition deps_union (d1 d2 : deps) : deps :=
  mkDeps (internal_deps d1 ∪ internal_deps d2)
         (external_deps d1 ∪ external_deps d2).

(** The path of the note that [write_markdown_nodes] writes for a file. *)
Definition note_full_path (vault_root : Path) (rel : list string) : Path :=
  joinpath vault_root (comps (with_suffix (relative rel) ".md")).

(** A directory name or file stem with no dot and no slash in it. *)
Definition plain_component (c : string) : Prop :=
  c <> "" /\ dot_free c /\ slash_free c.

(** A source file [dirs/stem.py] whose directories and stem are plain. *)
Definition plain_file (rel : list string) : Prop :=
  exists dirs stem,
    rel = dirs ++ [stem +:+ ".py"] /\ Forall plain_component (dirs ++ [stem]).

(** The four colours of [FOLDER_COLOR_MAP]. *)
Definition folder_colors : list string :=
  ["#f8b195"; "#f67280"; "#c06c84"; "#355c7d"].





(** A file system on which only the vault directory exists. *)
Definition ex_is_dir_vault_only : Path -> bool :=
  fun p => String.eqb (as_posix p) "/home/dev/vault".


(** * Properties *)

(** Closes a goal from [H : x ∈ l] for a concrete list [l] that does not
    hold the concrete [x]. *)
Ltac refute_elem_of H :=
  vm_compute in H;
  repeat (apply elem_of_cons in H as [H | H]; [discriminate H|]);
  by apply elem_of_nil in H.

(** ** Strings *)

Section PyStrFacts.

Lemma truthy_nonempty (s : string) : PyStr.truthy s = true <-> s <> "".
Proof. destruct s; simpl; split; congruence. Qed.

Lemma append_nil_l (s : string) : "" +:+ s = s.
Proof. reflexivity. Qed.

Lemma append_cons (c : ascii) (a b : string) :
  String c a +:+ b = String c (a +:+ b).
Proof. reflexivity. Qed.

Lemma truthy_app_r (a b : string) :
  PyStr.truthy b = true -> PyStr.truthy (a +:+ b) = true.
Proof. destruct a; [by rewrite append_nil_l | by rewrite append_cons]. Qed.

Lemma string_eqb_true (a b : string) : String.eqb a b = true <-> a = b.
Proof. apply String.eqb_eq. Qed.

Lemma endswith_self (s : string) : PyStr.endswith s s = true.
Proof.
  destruct s as [|c s]; [done|].
  cbn [PyStr.endswith]. by rewrite String.eqb_refl.
Qed.

(** [endswith] decides "is a suffix of". *)
Lemma endswith_spec (s suf : string) :
  PyStr.endswith s suf = true <-> exists pre, s = pre +:+ suf.
Proof.
  induction s as [|c s IH]; cbn [PyStr.endswith].
  - destruct suf as [|d suf]; simpl; split; intros H; try done.
    + by exists "".
    + destruct H as [[|? ?] H]; [rewrite append_nil_l in H | rewrite append_cons in H];
        discriminate H.
  - destruct (String.eqb (String c s) suf) eqn:E.
    + apply String.eqb_eq in E. split; [|done]. intros _. by exists "".
    + rewrite IH. split.
      * intros [pre ->]. by exists (String c pre).
      * intros [[|c' pre] H].
        -- rewrite append_nil_l in H. subst suf. by rewrite String.eqb_refl in E.
        -- rewrite append_cons in H. injection H as _ ->. by exists pre.
Qed.

Lemma split_head_dot_free (s : string) :
  PyStr.contains_char "." (PyStr.split_head "." s) = false.
Proof.
  induction s as [|c s IH]; simpl; [done|].
  destruct (Ascii.eqb c ".") eqn:E; simpl; [done|]. by rewrite E.
Qed.

(** Without a separator in it, a string is its own first field. *)
Lemma split_head_id (s : string) :
  PyStr.contains_char "." s = false -> PyStr.split_head "." s = s.
Proof.
  induction s as [|c s IH]; simpl; [done|].
  intros [E H]%orb_false_elim. rewrite E. by rewrite IH.
Qed.

End PyStrFacts.

(** ** Dictionaries *)

Section PyDictFacts.

Lemma contains_spec (d : dict) (k : string) :
  PyDict.contains d k = true <-> k ∈ PyDict.keys d.
Proof.
  unfold PyDict.contains. rewrite existsb_exists. split.
  - intros (x & Hin & ->%String.eqb_eq). by apply list_elem_of_In.
  - intros Hin. exists k. split; [by apply list_elem_of_In | apply String.eqb_refl].
Qed.

Lemma contains_false (d : dict) (k : string) :
  PyDict.contains d k = false <-> k ∉ PyDict.keys d.
Proof. rewrite <- contains_spec. by destruct (PyDict.contains d k). Qed.

Lemma get_set (d : dict) (k v k' : string) :
  PyDict.get (PyDict.set d k v) k' = if String.eqb k' k then Some v else PyDict.get d k'.
Proof.
  induction d as [|[k0 v0] d IH]; simpl; [done|].
  destruct (String.eqb k k0) eqn:E; simpl.
  - apply String.eqb_eq in E as ->. by destruct (String.eqb k' k0).
  - rewrite IH. destruct (String.eqb k' k0) eqn:E'; [|done].
    apply String.eqb_eq in E' as ->. by rewrite String.eqb_sym, E.
Qed.




Lemma elem_of_set (d : dict) (k v : string) (e : string * string) :
  e ∈ PyDict.set d k v -> e = (k, v) \/ e ∈ d.
Proof.
  induction d as [|[k0 v0] d IH]; simpl.
  - intros ->%list_elem_of_singleton. by left.
  - destruct (String.eqb k k0) eqn:E.
    + apply String.eqb_eq in E as ->.
      intros [-> | H]%elem_of_cons; [by left | right; by apply list_elem_of_further].
    + intros [-> | H]%elem_of_cons; [right; apply list_elem_of_here|].
      destruct (IH H) as [-> | H']; [by left | right; by apply list_elem_of_further].
Qed.


End PyDictFacts.

(** ** The internal-match rule *)

Section IsInternalFacts.

Lemma find_first {A : Type} (f : A -> bool) (l : list A) (x : A) :
  List.find f l = Some x <->
  exists l1 l2, l = l1 ++ x :: l2 /\ Forall (fun y => f y = false) l1 /\ f x = true.
Proof.
  induction l as [|a l IH]; simpl.
  - split; [done|]. intros (l1 & l2 & H & _). by destruct l1.
  - destruct (f a) eqn:E.
    + split.
      * intros [= ->]. by exists [], l.
      * intros ([|b l1] & l2 & H & Hall & Hx); simplify_eq/=; [done|].
        apply Forall_cons in Hall as [Hb _]. congruence.
    + rewrite IH. split.
      * intros (l1 & l2 & -> & Hall & Hx). exists (a :: l1), l2.
        split_and!; [done| by constructor |done].
      * intros ([|b l1] & l2 & H & Hall & Hx); simplify_eq/=; [congruence|].
        apply Forall_cons in Hall as [_ Hall]. by exists l1, l2.
Qed.

Lemma find_nothing {A : Type} (f : A -> bool) (l : list A) :
  List.find f l = None <-> Forall (fun y => f y = false) l.
Proof.
  induction l as [|a l IH]; simpl; [by split; [constructor|]|].
  destruct (f a) eqn:E.
  - split; [done|]. intros [? _]%Forall_cons. congruence.
  - rewrite IH. split; [by constructor|]. by intros [_ ?]%Forall_cons.
Qed.

Lemma endswith_dot_suffix (candidate key : string) :
  PyStr.endswith key ("." +:+ candidate) = true <-> dot_suffix candidate key.
Proof. apply endswith_spec. Qed.

Lemma endswith_not_dot_suffix (candidate key : string) :
  PyStr.endswith key ("." +:+ candidate) = false <-> ~ dot_suffix candidate key.
Proof.
  rewrite <- endswith_dot_suffix.
  by destruct (PyStr.endswith key ("." +:+ candidate)).
Qed.

Lemma Forall_not_dot_suffix (candidate : string) (l : list string) :
  Forall (fun key => PyStr.endswith key ("." +:+ candidate) = false) l <->
  Forall (fun key => ~ dot_suffix candidate key) l.
Proof. apply Forall_iff. intros key. apply endswith_not_dot_suffix. Qed.

(** Whatever [is_internal] returns is a key of the catalog. *)
Lemma is_internal_key (catalog : dict) (candidate key : string) :
  is_internal catalog candidate = Some key -> key ∈ PyDict.keys catalog.
Proof.
  unfold is_internal. destruct (PyDict.contains catalog candidate) eqn:E.
  - intros [= <-]. by apply contains_spec.
  - intros (l1 & l2 & H & _)%find_first. rewrite H. set_solver.
Qed.

(** For a non-empty candidate a returned match is a non-empty string, so
    the truth test on it is a test for [None]. *)
Lemma is_internal_truthy (catalog : dict) (candidate key : string) :
  candidate <> "" ->
  is_internal catalog candidate = Some key -> PyStr.truthy key = true.
Proof.
  intros Hne. unfold is_internal.
  destruct (PyDict.contains catalog candidate).
  - intros [= <-]. by apply truthy_nonempty.
  - intros (_ & _ & _ & _ & [pre ->]%endswith_dot_suffix)%find_first.
    by apply truthy_app_r.
Qed.

Lemma if_match_nonempty {A : Type} (catalog : dict) (candidate : string)
    (yes : string -> A) (no : A) :
  candidate <> "" ->
  if_match (is_internal catalog candidate) yes no =
    match is_internal catalog candidate with Some key => yes key | None => no end.
Proof.
  intros Hne. unfold if_match.
  destruct (is_internal catalog candidate) as [key|] eqn:E; [|done].
  by rewrite (is_internal_truthy _ _ _ Hne E).
Qed.

End IsInternalFacts.

(** C2. [is_internal] follows the internal-match rule: it returns the
    candidate when the candidate is a catalog key; otherwise the first key,
    in catalog order, that ends with a dot followed by the candidate;
    otherwise no match.  The rule determines the result, and the result is
    the only one the rule allows. *)
Theorem is_internal_rule (catalog : dict) (candidate : string) (r : option string) :
  internal_match_rule catalog candidate r <-> is_internal catalog candidate = r.
Proof.
  unfold is_internal. split.
  - intros [Hin | before after key Hnin Hkeys Hbefore Hkey | Hnin Hnone].
    + apply contains_spec in Hin. by rewrite Hin.
    + apply contains_false in Hnin. rewrite Hnin. apply find_first.
      exists before, after. split_and!; [done| |].
      * by apply Forall_not_dot_suffix.
      * by apply endswith_dot_suffix.
    + apply contains_false in Hnin. rewrite Hnin. apply find_nothing.
      by apply Forall_not_dot_suffix.
  - destruct (PyDict.contains catalog candidate) eqn:E.
    + intros <-. apply match_exact. by apply contains_spec.
    + apply contains_false in E. intros <-.
      destruct (List.find _ _) as [key|] eqn:F.
      * apply find_first in F as (before & after & Hkeys & Hbefore & Hkey).
        eapply match_suffix; [done|exact Hkeys| |].
        -- by apply Forall_not_dot_suffix.
        -- by apply endswith_dot_suffix.
      * apply match_none; [done|].
        apply Forall_not_dot_suffix. by apply find_nothing.
Qed.

(** ** What the walk keeps true of the two sets *)

Section WalkInvariant.

Variable catalog : dict.

Lemma fold_left_preserves {A B : Type} (P : A -> Prop) (f : A -> B -> A)
    (l : list B) (a : A) :
  P a -> (forall a' b, P a' -> P (f a' b)) -> P (fold_left f l a).
Proof.
  intros Ha Hstep. revert a Ha.
  induction l as [|b l IH]; simpl; intros a Ha; [done|].
  apply IH. by apply Hstep.
Qed.

Lemma deps_inv_empty : deps_inv catalog no_deps.
Proof. split; intros x Hx; simpl in Hx; set_solver. Qed.

Lemma deps_inv_add_internal (key : string) (d : deps) :
  key ∈ PyDict.keys catalog -> deps_inv catalog d ->
  deps_inv catalog (add_internal key d).
Proof.
  intros Hkey [Hi He]. split; simpl; [|done].
  intros k [->%elem_of_singleton | Hk]%elem_of_union; auto.
Qed.

Lemma deps_inv_add_external (m : string) (d : deps) :
  deps_inv catalog d ->
  deps_inv catalog (add_external (PyStr.split_head "." m) d).
Proof.
  intros [Hi He]. split; simpl; [done|].
  intros x [->%elem_of_singleton | Hx]%elem_of_union; auto.
  apply split_head_dot_free.
Qed.

(** Both branches of a truth test on a match keep the invariant when the
    failure branch does. *)
Lemma deps_inv_if_match (candidate : string) (d no : deps) :
  deps_inv catalog d -> deps_inv catalog no ->
  deps_inv catalog
    (if_match (is_internal catalog candidate)
       (fun internal_match => add_internal internal_match d) no).
Proof.
  intros Hd Hno. unfold if_match.
  destruct (is_internal catalog candidate) as [key|] eqn:E; [|done].
  destruct (PyStr.truthy key); [|done].
  apply deps_inv_add_internal; [|done]. by eapply is_internal_key.
Qed.

Lemma visit_import_alias_inv (d : deps) (a : alias) :
  deps_inv catalog d -> deps_inv catalog (visit_import_alias catalog d a).
Proof.
  intros Hd. unfold visit_import_alias.
  apply deps_inv_if_match; [done|]. by apply deps_inv_add_external.
Qed.

Lemma visit_from_alias_inv (mod_full : string) (d : deps) (a : alias) :
  deps_inv catalog d -> deps_inv catalog (visit_from_alias catalog mod_full d a).
Proof.
  intros Hd. unfold visit_from_alias.
  destruct (String.eqb (alias_name a) "*"); [done|].
  apply deps_inv_if_match; [done|].
  destruct (PyStr.truthy mod_full).
  - apply deps_inv_if_match; [done|]. by apply deps_inv_add_external.
  - by apply deps_inv_add_external.
Qed.

Lemma visit_node_inv (d : deps) (n : node) :
  deps_inv catalog d -> deps_inv catalog (visit_node catalog d n).
Proof.
  intros Hd. destruct n as [names | module names level |]; simpl; [| |done].
  - apply fold_left_preserves; [done|]. intros; by apply visit_import_alias_inv.
  - apply fold_left_preserves; [done|]. intros; by apply visit_from_alias_inv.
Qed.

Lemma collect_imports_inv (tree : ast) :
  deps_inv catalog (collect_imports catalog tree).
Proof.
  unfold collect_imports. apply fold_left_preserves.
  - apply deps_inv_empty.
  - intros; by apply visit_node_inv.
Qed.

End WalkInvariant.

(** ** What [parse_imports] can return *)

Section ParseImportsFacts.

Variable read_text : Path -> outcome string.
Variable ast_parse : string -> string -> outcome ast.

(** A returned record is empty or is what the walk collects from the
    parsed tree. *)
Lemma parse_imports_returned (filepath : Path) (catalog : dict)
    (w w' : world) (d : deps) :
  parse_imports read_text ast_parse filepath catalog w = (Returned d, w') ->
  d = no_deps \/ exists tree, d = collect_imports catalog tree.
Proof.
  unfold parse_imports, try_except, call.
  destruct (read_text filepath) as [source|e].
  - destruct (ast_parse source (as_posix filepath)) as [tree|e].
    + intros [= <- _]. right. by exists tree.
    + destruct (isinstance_SyntaxError e); [|done]. intros [= <- _]. by left.
  - destruct (isinstance_Exception e); [|done]. intros [= <- _]. by left.
Qed.

Lemma parse_imports_inv (filepath : Path) (catalog : dict)
    (w w' : world) (d : deps) :
  parse_imports read_text ast_parse filepath catalog w = (Returned d, w') ->
  deps_inv catalog d.
Proof.
  intros [-> | [tree ->]]%parse_imports_returned.
  - apply deps_inv_empty.
  - apply collect_imports_inv.
Qed.

End ParseImportsFacts.

(** C9. Every element of the internal set that [parse_imports] returns is a
    key of the catalog it was given. *)
Theorem parse_imports_internal_are_keys
    (read_text : Path -> outcome string) (ast_parse : string -> string -> outcome ast)
    (filepath : Path) (catalog : dict) (w w' : world) (d : deps) (k : string) :
  parse_imports read_text ast_parse filepath catalog w = (Returned d, w') ->
  k ∈ internal_deps d ->
  k ∈ PyDict.keys catalog.
Proof.
  intros Hret Hk. by apply (parse_imports_inv _ _ _ _ _ _ _ Hret).
Qed.

Lemma parse_imports_internal_are_keys_witness :
  "settings" ∈ PyDict.keys ex_catalog.
Proof.
  apply (parse_imports_internal_are_keys
           (reads_as ex_overlap_source) (parses_as ex_overlap_ast)
           (joinpath ex_root ["main.py"]) ex_catalog ex_world ex_world
           (collect_imports ex_catalog ex_overlap_ast) "settings").
  - reflexivity.
  - vm_compute. reflexivity.
Defined.

(** C1, as stated, fails: with [settings.py] at the project root, a file that
    imports [settings] and [settings.local] gets [settings] in both sets. *)
Lemma parse_imports_sets_overlap :
  let d := collect_imports ex_catalog ex_overlap_ast in
  parse_imports (reads_as ex_overlap_source) (parses_as ex_overlap_ast)
    (joinpath ex_root ["main.py"]) ex_catalog ex_world = (Returned d, ex_world)
  /\ "settings" ∈ internal_deps d
  /\ "settings" ∈ external_deps d
  /\ ~ (internal_deps d ## external_deps d).
Proof.
  assert (Hi : "settings" ∈ internal_deps (collect_imports ex_catalog ex_overlap_ast))
    by (vm_compute; reflexivity).
  assert (He : "settings" ∈ external_deps (collect_imports ex_catalog ex_overlap_ast))
    by (vm_compute; reflexivity).
  split_and!; [reflexivity|done|done|].
  intros Hdisj. exact (Hdisj "settings" Hi He).
Qed.

(** C1, amended. A name that [parse_imports] returns in both sets is a
    catalog key without a dot; a catalog whose keys all contain a dot yields
    disjoint sets. *)
Theorem parse_imports_overlap_is_top_level_key
    (read_text : Path -> outcome string) (ast_parse : string -> string -> outcome ast)
    (filepath : Path) (catalog : dict) (w w' : world) (d : deps) :
  parse_imports read_text ast_parse filepath catalog w = (Returned d, w') ->
  (forall x, x ∈ internal_deps d -> x ∈ external_deps d ->
             x ∈ PyDict.keys catalog /\ dot_free x)
  /\ ((forall k, k ∈ PyDict.keys catalog -> ~ dot_free k) ->
      internal_deps d ## external_deps d).
Proof.
  intros [Hi He]%parse_imports_inv. split.
  - intros x Hxi Hxe. split; auto.
  - intros Hdots x Hxi Hxe. apply (Hdots x); auto.
Qed.

Lemma parse_imports_overlap_is_top_level_key_witness :
  ("settings" ∈ PyDict.keys ex_catalog /\ dot_free "settings")
  /\ (let d := collect_imports [("pkg.mod", "pkg/mod")] ex_overlap_ast in
      internal_deps d ## external_deps d).
Proof.
  split.
  - destruct (parse_imports_overlap_is_top_level_key
                (reads_as ex_overlap_source) (parses_as ex_overlap_ast)
                (joinpath ex_root ["main.py"]) ex_catalog ex_world ex_world
                (collect_imports ex_catalog ex_overlap_ast) eq_refl) as [H _].
    apply (H "settings"); vm_compute; reflexivity.
  - destruct (parse_imports_overlap_is_top_level_key
                (reads_as ex_overlap_source) (parses_as ex_overlap_ast)
                (joinpath ex_root ["main.py"]) [("pkg.mod", "pkg/mod")]
                ex_world ex_world
                (collect_imports [("pkg.mod", "pkg/mod")] ex_overlap_ast)
                eq_refl) as [_ H].
    apply H. intros k ->%list_elem_of_singleton. vm_compute. discriminate.
Defined.

(** ** Classification of one import clause *)

Section Clauses.

Variable catalog : dict.



Lemma combined_candidate_nonempty (M A : string) :
  M <> "" -> M +:+ "." +:+ A <> "".
Proof. destruct M; [done|]. by rewrite append_cons. Qed.

Lemma not_wildcard (A : string) : A <> "*" -> String.eqb A "*" = false.
Proof. intros H. by apply String.eqb_neq. Qed.


Lemma visit_from_snoc (d : deps) (module : option string)
    (names : list alias) (a : alias) (level : nat) :
  visit_node catalog d (ImportFrom module (names ++ [a]) level) =
    visit_from_alias catalog (mod_full_of module level)
      (visit_node catalog d (ImportFrom module names level)) a.
Proof. simpl. by rewrite fold_left_app. Qed.

(** The walk handles the nodes in the order [ast.walk] yields them. *)
Lemma collect_imports_snoc (tree : ast) (n : node) :
  collect_imports catalog (tree ++ [n])
  = visit_node catalog (collect_imports catalog tree) n.
Proof. unfold collect_imports. by rewrite fold_left_app. Qed.

End Clauses.







(** C8. A wildcard from-import adds nothing to either set, whatever the
    module and the level: the clause leaves the sets as the names before it
    left them, and a file whose only imports are wildcard from-imports gets
    two empty sets, from the walk and from [parse_imports]. *)
Theorem wildcard_import_contributes_nothing (catalog : dict) :
  (forall module asn names level d,
     visit_node catalog d (ImportFrom module (names ++ [mkAlias "*" asn]) level)
     = visit_node catalog d (ImportFrom module names level))
  /\ (forall tree, Forall wildcard_only tree ->
                   collect_imports catalog tree = no_deps)
  /\ (forall read_text ast_parse filepath source tree w,
        read_text filepath = Returned source ->
        ast_parse source (as_posix filepath) = Returned tree ->
        Forall wildcard_only tree ->
        parse_imports read_text ast_parse filepath catalog w
        = (Returned no_deps, w)).
Proof.
  assert (Hclause : forall module asn names level d,
     visit_node catalog d (ImportFrom module (names ++ [mkAlias "*" asn]) level)
     = visit_node catalog d (ImportFrom module names level)).
  { intros. by rewrite visit_from_snoc. }
  assert (Hwalk : forall tree, Forall wildcard_only tree ->
                               collect_imports catalog tree = no_deps).
  { intros tree Htree. unfold collect_imports. generalize no_deps as d.
    induction Htree as [|n tree Hn _ IH]; intros d; [done|].
    cbn [fold_left]. rewrite IH.
    destruct Hn as [-> | (module & asn & level & ->)]; [done|].
    apply (Hclause module asn [] level d). }
  split_and!; [done|done|].
  intros read_text ast_parse filepath source tree w Hread Hparse Htree.
  unfold parse_imports, try_except, call. rewrite Hread, Hparse.
  by rewrite (Hwalk tree Htree).
Qed.

Lemma wildcard_import_contributes_nothing_witness :
  parse_imports (reads_as ex_wildcard_source) (parses_as ex_wildcard_ast)
    (joinpath ex_root ["main.py"]) ex_catalog ex_world
  = (Returned no_deps, ex_world).
Proof.
  destruct (wildcard_import_contributes_nothing ex_catalog) as (_ & _ & H).
  apply (H _ _ _ ex_wildcard_source ex_wildcard_ast); [reflexivity|reflexivity|].
  constructor; [by left|].
  constructor; [right; by exists (Some "pkg"), None, 0|].
  constructor; [by left|]. constructor.
Defined.

(** ** Failures of reading and parsing *)

Section Failures.

Variable read_text : Path -> outcome string.
Variable ast_parse : string -> string -> outcome ast.





(** An exception of [ast.parse] that is not a [SyntaxError] is not caught. *)
Lemma parse_imports_propagates (filepath : Path) (catalog : dict) (w : world)
    (source : string) (e : exn) :
  read_text filepath = Returned source ->
  ast_parse source (as_posix filepath) = Raised e ->
  isinstance_SyntaxError e = false ->
  parse_imports read_text ast_parse filepath catalog w = (Raised e, w).
Proof.
  intros Hread Hparse He.
  unfold parse_imports, try_except, call. by rewrite Hread, Hparse, He.
Qed.




End Failures.



(** ** The catalog builder *)

Section CatalogFacts.

Variable project_root : Path.

Lemma fold_left_preserves_in {A B : Type} (P : A -> Prop) (f : A -> B -> A)
    (l : list B) (a : A) :
  P a -> (forall a' b, b ∈ l -> P a' -> P (f a' b)) -> P (fold_left f l a).
Proof.
  revert a. induction l as [|b l IH]; simpl; intros a Ha Hstep; [done|].
  apply IH.
  - apply Hstep; [apply list_elem_of_here | done].
  - intros a' b' Hb'. apply Hstep. by apply list_elem_of_further.
Qed.

Lemma elem_of_rglob_py (tree : list (list string)) (rel : list string) :
  rel ∈ rglob_py tree <->
  PyStr.endswith (name (relative rel)) ".py" = true /\ rel ∈ tree.
Proof. unfold rglob_py. by rewrite list_elem_of_filter. Qed.

Lemma py_name_nonempty (rel : list string) :
  PyStr.endswith (name (relative rel)) ".py" = true -> rel <> [].
Proof. intros H ->. vm_compute in H. discriminate H. Qed.

(** Below the root, the name of a file is the last relative component. *)
Lemma name_joinpath (rel : list string) :
  rel <> [] -> name (joinpath project_root rel) = name (relative rel).
Proof.
  intros Hne. unfold name, joinpath, relative. cbn [comps].
  rewrite last_app. destruct (last rel) eqn:E; [done|].
  by apply last_None in E.
Qed.

Lemma skipped_false (rel : list string) :
  rel <> [] ->
  skipped project_root rel = false <->
  (".venv" ∉ parts (joinpath project_root rel))
  /\ PyStr.startswith (name (relative rel)) "__" = false.
Proof.
  intros Hne. unfold skipped. cbv zeta. rewrite (name_joinpath _ Hne).
  by rewrite orb_false_iff, bool_decide_eq_false.
Qed.

Lemma module_entry_is_Some (rel : list string) :
  is_Some (module_entry project_root rel) <-> skipped project_root rel = false.
Proof.
  unfold module_entry. destruct (skipped project_root rel); split; done.
Qed.

Lemma eligible_not_skipped (rel : list string) :
  eligible project_root rel -> skipped project_root rel = false.
Proof.
  intros (Hpy & Hvenv & Hpre). apply skipped_false; [|done].
  by apply py_name_nonempty.
Qed.

Lemma module_entry_eligible (rel : list string) :
  eligible project_root rel ->
  module_entry project_root rel
  = Some (mod_name_of project_root rel, note_path_of rel).
Proof.
  intros H%eligible_not_skipped. unfold module_entry. by rewrite H.
Qed.

(** A name that starts with two underscores is skipped, so for a file that is
    not skipped the branch for [__init__.py] is not taken. *)
Lemma mod_name_of_eligible (rel : list string) :
  eligible project_root rel ->
  mod_name_of project_root rel = PyStr.replace "/" "." (note_path_of rel).
Proof.
  intros (Hpy & _ & Hpre). unfold mod_name_of, note_path_of. cbv zeta.
  rewrite (name_joinpath _ (py_name_nonempty _ Hpy)).
  destruct (String.eqb (name (relative rel)) "__init__.py") eqn:E; [|done].
  apply String.eqb_eq in E. rewrite E in Hpre. vm_compute in Hpre. discriminate Hpre.
Qed.

Lemma initializer_skipped (rel : list string) :
  is_initializer rel -> skipped project_root rel = true.
Proof.
  unfold is_initializer. intros Hinit.
  assert (rel <> []) as Hne by (intros ->; vm_compute in Hinit; discriminate Hinit).
  unfold skipped. cbv zeta. rewrite (name_joinpath _ Hne), Hinit.
  apply orb_true_iff. by right.
Qed.

Lemma step_skipped (modules : dict) (rel : list string) :
  skipped project_root rel = true ->
  get_internal_modules_step project_root modules rel = modules.
Proof.
  intros Hs. unfold get_internal_modules_step, module_entry. by rewrite Hs.
Qed.

Lemma step_get (modules : dict) (rel : list string) (k : string) :
  PyDict.get (get_internal_modules_step project_root modules rel) k =
    match module_entry project_root rel with
    | Some (k', v) => if String.eqb k k' then Some v else PyDict.get modules k
    | None => PyDict.get modules k
    end.
Proof.
  unfold get_internal_modules_step.
  destruct (module_entry project_root rel) as [[k' v]|]; [|done].
  apply get_set.
Qed.



(** A key assigned once stays bound to the same value as long as no later
    file assigns to it. *)
Lemma fold_get_stable (files : list (list string)) (modules : dict)
    (k v : string) :
  PyDict.get modules k = Some v ->
  (forall r, r ∈ files -> forall k' v',
     module_entry project_root r = Some (k', v') -> k' <> k) ->
  PyDict.get (fold_left (get_internal_modules_step project_root) files modules) k
  = Some v.
Proof.
  revert modules. induction files as [|r files IH]; intros modules Hget Hlater;
    [done|].
  cbn [fold_left]. apply IH.
  - rewrite step_get.
    destruct (module_entry project_root r) as [[k' v']|] eqn:E; [|done].
    destruct (String.eqb k k') eqn:Ek; [|done].
    apply String.eqb_eq in Ek. exfalso.
    by apply (Hlater r (list_elem_of_here _ _) k' v' E).
  - intros r' Hr'. apply Hlater. by apply list_elem_of_further.
Qed.



(** Every entry of the catalog was assigned for some eligible file. *)
Lemma catalog_entry_origin (tree : list (list string)) (k v : string) :
  (k, v) ∈ get_internal_modules project_root tree ->
  exists rel, rel ∈ tree /\ eligible project_root rel
              /\ k = mod_name_of project_root rel /\ v = note_path_of rel.
Proof.
  unfold get_internal_modules. revert k v.
  apply (fold_left_preserves_in
           (fun modules : dict => forall k v, (k, v) ∈ modules ->
              exists rel, rel ∈ tree /\ eligible project_root rel
                          /\ k = mod_name_of project_root rel
                          /\ v = note_path_of rel)).
  - intros k v H. by apply elem_of_nil in H.
  - intros modules rel [Hpy Hrel]%elem_of_rglob_py IH k v.
    unfold get_internal_modules_step, module_entry.
    destruct (skipped project_root rel) eqn:Hs; [by apply IH|].
    intros [[= -> ->] | H]%elem_of_set; [|by apply IH].
    exists rel. split_and!; try done.
    apply skipped_false in Hs as [? ?]; [|by apply py_name_nonempty].
    by split_and!.
Qed.

(** The catalog after the file at [rel], when no later file derives the same
    dotted name. *)
Lemma catalog_lookup (before after : list (list string)) (rel : list string) :
  eligible project_root rel ->
  (forall r, r ∈ after -> eligible project_root r ->
     mod_name_of project_root r <> mod_name_of project_root rel) ->
  PyDict.get (get_internal_modules project_root (before ++ rel :: after))
    (mod_name_of project_root rel)
  = Some (note_path_of rel).
Proof.
  intros Hel Hafter. unfold get_internal_modules, rglob_py.
  rewrite filter_app, filter_cons, decide_True by apply Hel.
  rewrite fold_left_app. cbn [fold_left].
  apply fold_get_stable.
  - rewrite step_get, (module_entry_eligible _ Hel). by rewrite String.eqb_refl.
  - intros r [Hpy Hr]%list_elem_of_filter k' v'. unfold module_entry.
    destruct (skipped project_root r) eqn:Hs; [done|]. intros [= <- <-].
    apply Hafter; [done|].
    apply skipped_false in Hs as [? ?]; [|by apply py_name_nonempty].
    by split_and!.
Qed.


(** Taking a skipped entry out of the tree leaves the catalog as it was. *)
Lemma catalog_without_skipped (before after : list (list string))
    (rel : list string) :
  skipped project_root rel = true ->
  get_internal_modules project_root (before ++ rel :: after)
  = get_internal_modules project_root (before ++ after).
Proof.
  intros Hs. unfold get_internal_modules, rglob_py.
  rewrite !filter_app, filter_cons. case_decide; [|done].
  rewrite !fold_left_app. cbn [fold_left]. f_equal.
  by apply step_skipped.
Qed.

End CatalogFacts.

(** ** Names and note paths of ordinary files *)

Section NamingFacts.

Lemma append_nil_r (s : string) : s +:+ "" = s.
Proof. induction s as [|c s IH]; [done|]. by rewrite append_cons, IH. Qed.

Lemma rpartition_dot_py (stem : string) :
  PyStr.rpartition_dot (stem +:+ ".py") = Some (stem, ".py").
Proof.
  induction stem as [|c stem IH]; [done|].
  rewrite append_cons. cbn [PyStr.rpartition_dot]. by rewrite IH.
Qed.

(** [with_suffix("")] takes [.py] off a name that has something before it. *)
Lemma with_suffix_name_py (stem : string) :
  stem <> "" -> Pathlib.with_suffix_name (stem +:+ ".py") "" = stem.
Proof.
  intros Hne%truthy_nonempty. unfold Pathlib.with_suffix_name.
  rewrite rpartition_dot_py, Hne. cbn. apply append_nil_r.
Qed.

Lemma as_posix_relative (cs : list string) :
  cs <> [] -> as_posix (relative cs) = PyStr.join "/" cs.
Proof. destruct cs; [done|]. intros _. unfold as_posix, relative. by cbn. Qed.

Lemma note_path_of_py (dirs : list string) (stem : string) :
  stem <> "" ->
  note_path_of (dirs ++ [stem +:+ ".py"]) = PyStr.join "/" (dirs ++ [stem]).
Proof.
  intros Hne. unfold note_path_of, with_suffix, name. cbn [relative comps anchor].
  rewrite last_snoc, removelast_last. cbn [default from_option id].
  rewrite (with_suffix_name_py _ Hne).
  apply as_posix_relative. by destruct dirs.
Qed.

Lemma replace_append (a b : ascii) (x y : string) :
  PyStr.replace a b (x +:+ y) = PyStr.replace a b x +:+ PyStr.replace a b y.
Proof.
  induction x as [|c x IH]; [done|].
  rewrite append_cons. cbn [PyStr.replace]. by rewrite IH, append_cons.
Qed.

Lemma replace_slash_free (c : string) :
  slash_free c -> PyStr.replace "/" "." c = c.
Proof.
  unfold slash_free. induction c as [|a c IH]; [done|]. cbn.
  intros [Ha Hc]%orb_false_elim. rewrite Ha. by rewrite IH.
Qed.

(** Joining with slashes and turning the slashes into dots is joining with
    dots, when no component holds a slash. *)
Lemma replace_join (cs : list string) :
  Forall slash_free cs ->
  PyStr.replace "/" "." (PyStr.join "/" cs) = PyStr.join "." cs.
Proof.
  unfold PyStr.join. induction 1 as [|c cs Hc Hcs IH]; [done|].
  destruct cs as [|c' cs].
  - cbn. by apply replace_slash_free.
  - change (String.concat "/" (c :: c' :: cs))
      with (c +:+ "/" +:+ String.concat "/" (c' :: cs)).
    change (String.concat "." (c :: c' :: cs))
      with (c +:+ "." +:+ String.concat "." (c' :: cs)).
    rewrite !replace_append, IH, (replace_slash_free _ Hc). done.
Qed.

End NamingFacts.

(** C5, as stated, fails: [pkg/__init__.py] of the example project is not
    under [.venv], yet it produces no entry and [pkg] is not a key. *)
Lemma initializer_produces_no_entry :
  is_initializer ["pkg"; "__init__.py"]
  /\ (".venv" ∉ parts (joinpath ex_root ["pkg"; "__init__.py"]))
  /\ ["pkg"; "__init__.py"] ∈ ex_tree
  /\ ~ produces_entry ex_root ex_tree ["pkg"; "__init__.py"]
  /\ ex_catalog
     = [("settings", "settings"); ("main", "main"); ("pkg.mod", "pkg/mod")].
Proof.
  split_and!.
  - reflexivity.
  - intros H. refute_elem_of H.
  - unfold ex_tree. set_solver.
  - intros [_ [e He]]. vm_compute in He. discriminate He.
  - reflexivity.
Qed.

(** C5, amended. A package-initializer file never produces a catalog entry:
    its name starts with two underscores, so the loop skips it before the
    naming of initializers is reached, and the catalog is the same as if the
    file were not in the tree. *)
Theorem initializer_files_are_skipped (project_root : Path) (rel : list string) :
  is_initializer rel ->
  module_entry project_root rel = None
  /\ (forall tree, ~ produces_entry project_root tree rel)
  /\ (forall before after,
        get_internal_modules project_root (before ++ rel :: after)
        = get_internal_modules project_root (before ++ after)).
Proof.
  intros Hs%(initializer_skipped project_root). split_and!.
  - unfold module_entry. by rewrite Hs.
  - intros tree [_ He%module_entry_is_Some]. congruence.
  - intros before after. by apply catalog_without_skipped.
Qed.

Lemma initializer_files_are_skipped_witness :
  module_entry ex_root ["pkg"; "__init__.py"] = None
  /\ get_internal_modules ex_root ex_tree
     = get_internal_modules ex_root [["settings.py"]; ["main.py"]; ["pkg"; "mod.py"]].
Proof.
  destruct (initializer_files_are_skipped ex_root ["pkg"; "__init__.py"] eq_refl)
    as (Hentry & _ & Hsame).
  split; [exact Hentry|].
  exact (Hsame [["settings.py"]; ["main.py"]] [["pkg"; "mod.py"]]).
Defined.

(** What the unreached branch for initializers computes: the parent
    directories joined by dots, or the name of the project root for an
    initializer directly below the root; the note path is the path of the
    file itself. *)
Lemma initializer_naming_rule (project_root : Path) (dirs : list string) :
  Forall slash_free dirs ->
  mod_name_of project_root (dirs ++ ["__init__.py"])
  = match dirs with [] => name project_root | _ => PyStr.join "." dirs end
  /\ note_path_of (dirs ++ ["__init__.py"]) = PyStr.join "/" (dirs ++ ["__init__"]).
Proof.
  intros Hdirs. split.
  - unfold mod_name_of. cbv zeta.
    rewrite name_joinpath by by destruct dirs.
    unfold name at 1. cbn [relative comps]. rewrite last_snoc.
    cbn [default from_option id String.eqb Ascii.eqb Bool.eqb].
    unfold parent. cbn [relative comps anchor]. rewrite removelast_last.
    destruct dirs as [|c dirs]; [done|].
    rewrite <- (replace_join _ Hdirs). by rewrite as_posix_relative.
  - unfold note_path_of, with_suffix, name. cbn [relative comps anchor].
    rewrite last_snoc, removelast_last. cbn [default from_option id].
    change (Pathlib.with_suffix_name "__init__.py" "") with "__init__".
    apply as_posix_relative. by destruct dirs.
Qed.

(** The dotted name and the note path of an ordinary source file: the
    directories and the file name without [.py], joined by dots and by
    slashes. *)
Lemma entry_of_py_file (project_root : Path) (dirs : list string) (stem : string) :
  stem <> "" -> Forall slash_free (dirs ++ [stem]) ->
  eligible project_root (dirs ++ [stem +:+ ".py"]) ->
  mod_name_of project_root (dirs ++ [stem +:+ ".py"]) = PyStr.join "." (dirs ++ [stem])
  /\ note_path_of (dirs ++ [stem +:+ ".py"]) = PyStr.join "/" (dirs ++ [stem]).
Proof.
  intros Hne Hfree Hel.
  rewrite (mod_name_of_eligible _ _ Hel), (note_path_of_py _ _ Hne).
  split; [by apply replace_join | done].
Qed.




(** ** The resolution examples of the specification *)

(** [from . import sibling] in [pkg/a.py], with [pkg/sibling.py] in the
    project: the candidate is [sibling] and the suffix rule finds
    [pkg.sibling]. *)
Example relative_sibling_is_internal :
  collect_imports [("pkg.a", "pkg/a"); ("pkg.sibling", "pkg/sibling")]
    [OtherNode; ImportFrom None [plain "sibling"] 1; OtherNode]
  = add_internal "pkg.sibling" no_deps.
Proof. reflexivity. Qed.

(** [import os] with no key equal to [os] or ending in [.os]. *)
Example import_os_is_external :
  collect_imports ex_catalog [OtherNode; Import [plain "os"]; OtherNode]
  = add_external "os" no_deps.
Proof. reflexivity. Qed.

(** With several keys ending in [.bots] the first in catalog order wins. *)
Example first_suffix_match_wins :
  is_internal [("base.bots", "base/bots"); ("extra.bots", "extra/bots")] "bots"
  = Some "base.bots".
Proof. reflexivity. Qed.

(** * Further properties of the resolver *)

Section ResolverExtras.

Variable catalog : dict.

Lemma deps_eq (d d' : deps) :
  internal_deps d = internal_deps d' -> external_deps d = external_deps d' ->
  d = d'.
Proof. destruct d, d'. simpl. by intros -> ->. Qed.

Lemma deps_union_assoc (a b c : deps) :
  deps_union (deps_union a b) c = deps_union a (deps_union b c).
Proof. apply deps_eq; simpl; by rewrite (assoc_L (∪)). Qed.

Lemma add_internal_union (k : string) (d : deps) :
  add_internal k d = deps_union d (add_internal k no_deps).
Proof.
  apply deps_eq; simpl; rewrite !(right_id_L ∅ (∪)); [apply (comm_L (∪)) | done].
Qed.

Lemma add_external_union (x : string) (d : deps) :
  add_external x d = deps_union d (add_external x no_deps).
Proof.
  apply deps_eq; simpl; rewrite !(right_id_L ∅ (∪)); [done | apply (comm_L (∪))].
Qed.

Lemma deps_union_empty (d : deps) : deps_union d no_deps = d.
Proof. apply deps_eq; simpl; apply (right_id_L ∅ (∪)). Qed.

Lemma if_match_union (o : option string) (d : deps) (no : deps -> deps) :
  (forall d', no d' = deps_union d' (no no_deps)) ->
  if_match o (fun m => add_internal m d) (no d)
  = deps_union d (if_match o (fun m => add_internal m no_deps) (no no_deps)).
Proof.
  intros Hno. unfold if_match. destruct o as [m|]; [|apply Hno].
  destruct (PyStr.truthy m); [apply add_internal_union | apply Hno].
Qed.

(** What one alias adds does not depend on what is in the sets already. *)
Lemma visit_import_alias_union (d : deps) (a : alias) :
  visit_import_alias catalog d a
  = deps_union d (visit_import_alias catalog no_deps a).
Proof.
  unfold visit_import_alias. cbv zeta.
  apply (if_match_union _ d (add_external _)). intros. apply add_external_union.
Qed.

Lemma visit_from_alias_union (mod_full : string) (d : deps) (a : alias) :
  visit_from_alias catalog mod_full d a
  = deps_union d (visit_from_alias catalog mod_full no_deps a).
Proof.
  unfold visit_from_alias.
  destruct (String.eqb (alias_name a) "*"); [by rewrite deps_union_empty|].
  cbv zeta. destruct (PyStr.truthy mod_full).
  - apply (if_match_union _ d
             (fun d' => if_match (is_internal catalog mod_full)
                          (fun m => add_internal m d')
                          (add_external (PyStr.split_head "." mod_full) d'))).
    intros d'. apply (if_match_union _ d' (add_external _)).
    intros. apply add_external_union.
  - apply (if_match_union _ d (add_external _)). intros. apply add_external_union.
Qed.

Lemma fold_left_union {A : Type} (f : deps -> A -> deps) (l : list A) (d : deps) :
  (forall d' a, f d' a = deps_union d' (f no_deps a)) ->
  fold_left f l d = deps_union d (fold_left f l no_deps).
Proof.
  intros Hf. revert d. induction l as [|a l IH]; intros d; cbn [fold_left].
  - by rewrite deps_union_empty.
  - rewrite (IH (f d a)), (IH (f no_deps a)), (Hf d a). apply deps_union_assoc.
Qed.

Lemma visit_node_union (d : deps) (n : node) :
  visit_node catalog d n = deps_union d (visit_node catalog no_deps n).
Proof.
  destruct n as [names | module names level |]; cbn [visit_node].
  - apply fold_left_union. intros. apply visit_import_alias_union.
  - apply fold_left_union. intros. apply visit_from_alias_union.
  - by rewrite deps_union_empty.
Qed.

(** A name is in a set after a loop exactly when it was there before or
    some turn of the loop, run on empty sets, puts it there. *)
Lemma elem_of_fold_union {A : Type} (proj : deps -> gset string)
    (f : deps -> A -> deps) (l : list A) (d : deps) (x : string) :
  (forall a b, proj (deps_union a b) = proj a ∪ proj b) ->
  (forall d' a, f d' a = deps_union d' (f no_deps a)) ->
  x ∈ proj (fold_left f l d) <->
  x ∈ proj d \/ exists a, a ∈ l /\ x ∈ proj (f no_deps a).
Proof.
  intros Hproj Hf. revert d. induction l as [|a l IH]; intros d; cbn [fold_left].
  - split; [by left|]. intros [H | (a & Ha & _)]; [done|]. by apply elem_of_nil in Ha.
  - rewrite IH, (Hf d a), Hproj, elem_of_union. split.
    + intros [[H | H] | (b & Hb & H)].
      * by left.
      * right. exists a. split; [apply list_elem_of_here | done].
      * right. exists b. split; [by apply list_elem_of_further | done].
    + intros [H | (b & [-> | Hb]%elem_of_cons & H)].
      * by left; left.
      * by left; right.
      * right. by exists b.
Qed.

Lemma elem_of_collect_internal (tree : ast) (x : string) :
  x ∈ internal_deps (collect_imports catalog tree) <->
  exists n, n ∈ tree /\ x ∈ internal_deps (visit_node catalog no_deps n).
Proof.
  unfold collect_imports.
  rewrite (elem_of_fold_union internal_deps) by (done || apply visit_node_union).
  cbn. split; [|by right]. by intros [?%elem_of_empty | H].
Qed.

Lemma elem_of_collect_external (tree : ast) (x : string) :
  x ∈ external_deps (collect_imports catalog tree) <->
  exists n, n ∈ tree /\ x ∈ external_deps (visit_node catalog no_deps n).
Proof.
  unfold collect_imports.
  rewrite (elem_of_fold_union external_deps) by (done || apply visit_node_union).
  cbn. split; [|by right]. by intros [?%elem_of_empty | H].
Qed.

Lemma keys_get (k : string) :
  k ∈ PyDict.keys catalog -> exists v, PyDict.get catalog k = Some v.
Proof.
  induction catalog as [|[k0 v0] d IH]; cbn.
  - intros H. by apply elem_of_nil in H.
  - destruct (String.eqb k k0) eqn:E; [by eexists|].
    intros [-> | H]%elem_of_cons; [by rewrite String.eqb_refl in E | by apply IH].
Qed.

End ResolverExtras.

(** X1. A match is its own match: resolving what [is_internal] returned gives
    the same key again. *)
Theorem is_internal_fixed_point (catalog : dict) (candidate key : string) :
  is_internal catalog candidate = Some key ->
  is_internal catalog key = Some key.
Proof.
  intros Hkey%is_internal_key%contains_spec. unfold is_internal. by rewrite Hkey.
Qed.

Lemma is_internal_fixed_point_witness :
  is_internal [("base.bots", "base/bots")] "base.bots" = Some "base.bots".
Proof.
  exact (is_internal_fixed_point [("base.bots", "base/bots")] "bots" "base.bots"
           eq_refl).
Defined.

(** X2. Every name in the external set that [parse_imports] returns is
    without a dot: only first components are recorded. *)
Theorem parse_imports_external_are_top_level
    (read_text : Path -> outcome string) (ast_parse : string -> string -> outcome ast)
    (filepath : Path) (catalog : dict) (w w' : world) (d : deps) (x : string) :
  parse_imports read_text ast_parse filepath catalog w = (Returned d, w') ->
  x ∈ external_deps d ->
  dot_free x.
Proof.
  intros Hret Hx. by apply (parse_imports_inv _ _ _ _ _ _ _ Hret).
Qed.

Lemma parse_imports_external_are_top_level_witness : dot_free "settings".
Proof.
  apply (parse_imports_external_are_top_level
           (reads_as ex_overlap_source) (parses_as ex_overlap_ast)
           (joinpath ex_root ["main.py"]) ex_catalog ex_world ex_world
           (collect_imports ex_catalog ex_overlap_ast) "settings").
  - reflexivity.
  - vm_compute. reflexivity.
Defined.

(** X3. The two sets depend only on which nodes the tree has, not on their
    order or on how often a node occurs. *)
Theorem collect_imports_same_nodes (catalog : dict) (tree tree' : ast) :
  (forall n, n ∈ tree <-> n ∈ tree') ->
  collect_imports catalog tree = collect_imports catalog tree'.
Proof.
  intros Hsame. apply deps_eq; apply set_eq; intros x.
  - rewrite !elem_of_collect_internal. by setoid_rewrite Hsame.
  - rewrite !elem_of_collect_external. by setoid_rewrite Hsame.
Qed.

Lemma collect_imports_same_nodes_witness :
  collect_imports ex_catalog [Import [plain "os"]; Import [plain "settings"]]
  = collect_imports ex_catalog
      [Import [plain "settings"]; Import [plain "os"]; Import [plain "settings"]].
Proof.
  apply collect_imports_same_nodes. intros n.
  rewrite !elem_of_cons, !elem_of_nil. tauto.
Defined.

(** X4. No import of the file is dropped.  For every plain import in the tree
    the match of its path is in the internal set, or without a match its
    first component is in the external set; for every name of a from-import
    other than the wildcard the match of the combined candidate, else the
    match of the module, is in the internal set, or else the first component
    of the module (of the name, when the module is left out) is in the
    external set. *)
Theorem every_import_is_recorded (catalog : dict) (tree : ast) :
  (forall names a,
     Import names ∈ tree -> a ∈ names -> alias_name a <> "" ->
     match is_internal catalog (alias_name a) with
     | Some key => key ∈ internal_deps (collect_imports catalog tree)
     | None => PyStr.split_head "." (alias_name a)
                 ∈ external_deps (collect_imports catalog tree)
     end)
  /\ (forall module names level a,
        ImportFrom module names level ∈ tree -> a ∈ names ->
        alias_name a <> "*" -> alias_name a <> "" ->
        let mod_full := mod_full_of module level in
        let candidate :=
          if PyStr.truthy mod_full then mod_full +:+ "." +:+ alias_name a
          else alias_name a in
        match is_internal catalog candidate with
        | Some key => key ∈ internal_deps (collect_imports catalog tree)
        | None =>
            if PyStr.truthy mod_full then
              match is_internal catalog mod_full with
              | Some key => key ∈ internal_deps (collect_imports catalog tree)
              | None => PyStr.split_head "." mod_full
                          ∈ external_deps (collect_imports catalog tree)
              end
            else PyStr.split_head "." (alias_name a)
                   ∈ external_deps (collect_imports catalog tree)
        end).
Proof.
  assert (Hint : forall k, k ∈ internal_deps (add_internal k no_deps)).
  { intros k. cbn. apply elem_of_union. left. by apply elem_of_singleton. }
  assert (Hext : forall x, x ∈ external_deps (add_external x no_deps)).
  { intros x. cbn. apply elem_of_union. left. by apply elem_of_singleton. }
  split.
  - intros names a Hn Ha Hne.
    pose proof (if_match_nonempty catalog (alias_name a)
                  (fun m => add_internal m no_deps)
                  (add_external (PyStr.split_head "." (alias_name a)) no_deps)
                  Hne) as Hstep.
    destruct (is_internal catalog (alias_name a)) as [key|] eqn:E.
    + apply elem_of_collect_internal. exists (Import names). split; [done|].
      cbn [visit_node].
      apply (elem_of_fold_union internal_deps);
        [done | intros; apply visit_import_alias_union |].
      right. exists a. split; [done|].
      unfold visit_import_alias. cbv zeta. rewrite E, Hstep. apply Hint.
    + apply elem_of_collect_external. exists (Import names). split; [done|].
      cbn [visit_node].
      apply (elem_of_fold_union external_deps);
        [done | intros; apply visit_import_alias_union |].
      right. exists a. split; [done|].
      unfold visit_import_alias. cbv zeta. rewrite E. apply Hext.
  - intros module names level a Hn Ha Hstar Hne mod_full candidate.
    assert (Hcand : candidate <> "").
    { subst candidate. destruct (PyStr.truthy mod_full) eqn:T; [|done].
      apply combined_candidate_nonempty. by apply truthy_nonempty. }
    assert (Hin : forall x,
              x ∈ internal_deps (visit_from_alias catalog mod_full no_deps a) ->
              x ∈ internal_deps (collect_imports catalog tree)).
    { intros x Hx. apply elem_of_collect_internal.
      exists (ImportFrom module names level). split; [done|]. cbn [visit_node].
      apply (elem_of_fold_union internal_deps);
        [done | intros; apply visit_from_alias_union |].
      right. by exists a. }
    assert (Hex : forall x,
              x ∈ external_deps (visit_from_alias catalog mod_full no_deps a) ->
              x ∈ external_deps (collect_imports catalog tree)).
    { intros x Hx. apply elem_of_collect_external.
      exists (ImportFrom module names level). split; [done|]. cbn [visit_node].
      apply (elem_of_fold_union external_deps);
        [done | intros; apply visit_from_alias_union |].
      right. by exists a. }
    revert Hin Hex. unfold visit_from_alias. rewrite (not_wildcard _ Hstar).
    fold candidate. rewrite (if_match_nonempty _ _ _ _ Hcand).
    destruct (is_internal catalog candidate) as [key|]; intros Hin Hex.
    { apply Hin, Hint. }
    destruct (PyStr.truthy mod_full) eqn:T; [|apply Hex, Hext].
    revert Hin Hex.
    rewrite (if_match_nonempty _ _ _ _ (proj1 (truthy_nonempty _) T)).
    destruct (is_internal catalog mod_full) as [key|]; intros Hin Hex.
    + apply Hin, Hint.
    + apply Hex, Hext.
Qed.

Lemma every_import_is_recorded_witness :
  "settings" ∈ internal_deps (collect_imports ex_catalog ex_overlap_ast)
  /\ "pkg.mod" ∈ internal_deps
       (collect_imports ex_catalog
          [OtherNode; ImportFrom (Some "pkg") [plain "mod"] 0]).
Proof.
  split.
  - destruct (every_import_is_recorded ex_catalog ex_overlap_ast) as [H _].
    apply (H [plain "settings"] (plain "settings")).
    + unfold ex_overlap_ast. apply list_elem_of_further, list_elem_of_here.
    + apply list_elem_of_here.
    + discriminate.
  - destruct (every_import_is_recorded ex_catalog
                [OtherNode; ImportFrom (Some "pkg") [plain "mod"] 0]) as [_ H].
    apply (H (Some "pkg") [plain "mod"] 0 (plain "mod")).
    + apply list_elem_of_further, list_elem_of_here.
    + apply list_elem_of_here.
    + discriminate.
    + discriminate.
Defined.

(** The effects of [parse_imports], whatever its outcome. *)
Lemma parse_imports_effects
    (read_text : Path -> outcome string) (ast_parse : string -> string -> outcome ast)
    (filepath : Path) (catalog : dict) (w w' : world) (r : outcome deps) :
  parse_imports read_text ast_parse filepath catalog w = (r, w') ->
  stdout w' = stdout w /\ notes w' = notes w
  /\ (w' = w
      \/ (r = Returned no_deps
          /\ exists line, stderr w' = stderr w ++ [line])).
Proof.
  unfold parse_imports, try_except, call.
  destruct (read_text filepath) as [source|e].
  - destruct (ast_parse source (as_posix filepath)) as [tree|e].
    + intros [= <- <-]. by split_and!; [..|left].
    + destruct (isinstance_SyntaxError e).
      * intros [= <- <-]. split_and!; [done|done|]. right. split; [done|]. by eexists.
      * intros [= <- <-]. by split_and!; [..|left].
  - destruct (isinstance_Exception e).
    + intros [= <- <-]. split_and!; [done|done|]. right. split; [done|]. by eexists.
    + intros [= <- <-]. by split_and!; [..|left].
Qed.

(** X5. Whatever its outcome, [parse_imports] writes no note and prints
    nothing on [sys.stdout]; it leaves the world as it was, or it returns two
    empty sets after adding one line to [sys.stderr]. *)
Theorem parse_imports_frame
    (read_text : Path -> outcome string) (ast_parse : string -> string -> outcome ast)
    (filepath : Path) (catalog : dict) (w w' : world) (r : outcome deps) :
  parse_imports read_text ast_parse filepath catalog w = (r, w') ->
  stdout w' = stdout w /\ notes w' = notes w
  /\ (w' = w
      \/ (r = Returned no_deps
          /\ exists line, stderr w' = stderr w ++ [line])).
Proof. apply parse_imports_effects. Qed.

Lemma parse_imports_frame_witness :
  exists line,
    stderr (parse_imports ex_read_text ex_ast_parse
              (joinpath ex_root ["pkg"; "mod.py"]) ex_catalog ex_world).2
    = [line].
Proof.
  destruct (parse_imports_frame ex_read_text ex_ast_parse
              (joinpath ex_root ["pkg"; "mod.py"]) ex_catalog ex_world
              (parse_imports ex_read_text ex_ast_parse
                 (joinpath ex_root ["pkg"; "mod.py"]) ex_catalog ex_world).2
              (parse_imports ex_read_text ex_ast_parse
                 (joinpath ex_root ["pkg"; "mod.py"]) ex_catalog ex_world).1)
    as (_ & _ & [H | [_ H]]).
  - by destruct (parse_imports _ _ _ _ _).
  - vm_compute in H. discriminate H.
  - exact H.
Defined.

(** * Further properties of the catalog and of the run *)

Section RunExtras.

Lemma get_Some_elem (d : dict) (k v : string) :
  PyDict.get d k = Some v -> (k, v) ∈ d.
Proof.
  induction d as [|[k0 v0] d IH]; cbn; [done|].
  destruct (String.eqb k k0) eqn:E.
  - apply String.eqb_eq in E as ->. intros [= ->]. apply list_elem_of_here.
  - intros H. apply list_elem_of_further. by apply IH.
Qed.

Variable read_text : Path -> outcome string.
Variable ast_parse : string -> string -> outcome ast.




End RunExtras.

(** X6. Every internal dependency that [parse_imports] returns against the
    catalog of the project has a link target: the lookup that renders the
    link finds a value, so it never falls back to the name itself, and the
    value is the note path of an eligible file of the project whose dotted
    name is the dependency. *)
Theorem internal_links_point_to_notes
    (read_text : Path -> outcome string) (ast_parse : string -> string -> outcome ast)
    (project_root filepath : Path) (tree : list (list string))
    (w w' : world) (d : deps) (dep : string) :
  parse_imports read_text ast_parse filepath
    (get_internal_modules project_root tree) w = (Returned d, w') ->
  dep ∈ internal_deps d ->
  exists rel,
    rel ∈ tree /\ eligible project_root rel
    /\ dep = mod_name_of project_root rel
    /\ PyDict.get (get_internal_modules project_root tree) dep
       = Some (note_path_of rel).
Proof.
  intros Hret Hdep.
  pose proof (proj1 (parse_imports_inv _ _ _ _ _ _ _ Hret) dep Hdep) as Hkey.
  destruct (keys_get _ _ Hkey) as [v Hv].
  destruct (catalog_entry_origin _ _ _ _ (get_Some_elem _ _ _ Hv))
    as (rel & Hrel & Hel & Hk & ->).
  by exists rel.
Qed.

Lemma internal_links_point_to_notes_witness :
  exists rel,
    rel ∈ ex_tree /\ eligible ex_root rel
    /\ "settings" = mod_name_of ex_root rel
    /\ PyDict.get ex_catalog "settings" = Some (note_path_of rel).
Proof.
  apply (internal_links_point_to_notes
           (reads_as ex_overlap_source) (parses_as ex_overlap_ast)
           ex_root (joinpath ex_root ["main.py"]) ex_tree ex_world ex_world
           (collect_imports ex_catalog ex_overlap_ast) "settings").
  - reflexivity.
  - vm_compute. reflexivity.
Defined.



(** X8. In every entry of the catalog the key is the value with its slashes
    turned into dots. *)
Theorem catalog_key_from_value (project_root : Path) (tree : list (list string))
    (k v : string) :
  (k, v) ∈ get_internal_modules project_root tree ->
  k = PyStr.replace "/" "." v.
Proof.
  intros (rel & _ & Hel & -> & ->)%catalog_entry_origin.
  by apply mod_name_of_eligible.
Qed.

Lemma catalog_key_from_value_witness :
  "pkg.mod" = PyStr.replace "/" "." "pkg/mod".
Proof.
  apply (catalog_key_from_value ex_root ex_tree "pkg.mod" "pkg/mod").
  vm_compute. do 2 apply list_elem_of_further. apply list_elem_of_here.
Defined.

Section VenvRoot.

Variable project_root : Path.
Hypothesis Hvenv : ".venv" ∈ parts project_root.

Lemma parts_joinpath (rel : list string) :
  parts (joinpath project_root rel) = parts project_root ++ rel.
Proof.
  unfold parts, joinpath. cbn [anchor comps].
  by destruct (PyStr.truthy (anchor project_root)).
Qed.

Lemma venv_root_skips_all (rel : list string) : skipped project_root rel = true.
Proof.
  unfold skipped. cbv zeta. apply orb_true_iff. left.
  apply bool_decide_eq_true. rewrite parts_joinpath. apply elem_of_app. by left.
Qed.

Lemma venv_root_catalog_empty (files : list (list string)) (modules : dict) :
  fold_left (get_internal_modules_step project_root) files modules = modules.
Proof.
  induction files as [|rel files IH]; [done|]. cbn [fold_left].
  by rewrite (step_skipped _ _ _ (venv_root_skips_all rel)).
Qed.

Lemma venv_root_writes_nothing (read_text : Path -> outcome string)
    (ast_parse : string -> string -> outcome ast) (vault_root : Path)
    (catalog : dict) (files : list (list string)) (w : world) :
  for_each files (write_node read_text ast_parse project_root vault_root catalog) w
  = (Returned tt, w).
Proof.
  induction files as [|rel files IH]; [done|]. cbn [for_each].
  unfold mbind, M_bind, write_node at 1. by rewrite venv_root_skips_all.
Qed.

End VenvRoot.

(** X9. The test for [.venv] looks at every part of the absolute path, the
    parts of the project root included: for a project root that lies below a
    directory named [.venv] the catalog is empty and a run writes and prints
    nothing. *)
Theorem project_below_venv_is_ignored
    (read_text : Path -> outcome string) (ast_parse : string -> string -> outcome ast)
    (project_root vault_root : Path) (tree : list (list string)) (w : world) :
  ".venv" ∈ parts project_root ->
  get_internal_modules project_root tree = []
  /\ write_markdown_nodes read_text ast_parse project_root vault_root tree w
     = (Returned tt, w).
Proof.
  intros Hvenv. split.
  - by apply venv_root_catalog_empty.
  - by apply venv_root_writes_nothing.
Qed.

Lemma project_below_venv_is_ignored_witness :
  get_internal_modules (mkPath "/" ["home"; "dev"; ".venv"; "proj"]) ex_tree = []
  /\ write_markdown_nodes ex_read_text ex_ast_parse
       (mkPath "/" ["home"; "dev"; ".venv"; "proj"]) ex_vault ex_tree ex_world
     = (Returned tt, ex_world).
Proof.
  apply project_below_venv_is_ignored.
  vm_compute. do 3 apply list_elem_of_further. apply list_elem_of_here.
Defined.

(** ** Names that cannot collide *)

Section PlainNames.

Lemma contains_char_app (c : ascii) (a b : string) :
  PyStr.contains_char c (a +:+ b)
  = PyStr.contains_char c a || PyStr.contains_char c b.
Proof.
  induction a as [|x a IH]; [done|].
  rewrite append_cons. cbn [PyStr.contains_char]. by rewrite IH, orb_assoc.
Qed.

(** Two texts cut at their first dot agree piece by piece. *)
Lemma first_dot_inj (c c' r r' : string) :
  dot_free c -> dot_free c' ->
  c +:+ "." +:+ r = c' +:+ "." +:+ r' -> c = c' /\ r = r'.
Proof.
  unfold dot_free. revert c'. induction c as [|x c IH]; intros [|x' c'] Hc Hc'.
  - rewrite (append_nil_l ("." +:+ r)), (append_nil_l ("." +:+ r')).
    rewrite !(append_cons "." ""), (append_nil_l r), (append_nil_l r').
    by intros [= ->].
  - rewrite (append_nil_l ("." +:+ r)), (append_cons x' c').
    rewrite (append_cons "." ""). intros [= <- _].
    cbn in Hc'. discriminate Hc'.
  - rewrite (append_nil_l ("." +:+ r')), (append_cons x c).
    rewrite (append_cons "." ""). intros [= -> _].
    cbn in Hc. discriminate Hc.
  - rewrite (append_cons x c), (append_cons x' c'). intros [= -> H].
    cbn in Hc, Hc'. apply orb_false_elim in Hc as [_ Hc].
    apply orb_false_elim in Hc' as [_ Hc'].
    destruct (IH c' Hc Hc' H) as [-> ->]. done.
Qed.

Lemma join_cons2 (sep c c' : string) (cs : list string) :
  PyStr.join sep (c :: c' :: cs) = c +:+ sep +:+ PyStr.join sep (c' :: cs).
Proof. reflexivity. Qed.

(** Joining plain components with dots loses nothing. *)
Lemma join_dot_inj (cs cs' : list string) :
  Forall plain_component cs -> Forall plain_component cs' ->
  cs <> [] -> cs' <> [] ->
  PyStr.join "." cs = PyStr.join "." cs' -> cs = cs'.
Proof.
  intros Hcs. revert cs'.
  induction Hcs as [|c cs (Hne & Hdot & _) Hcs IH]; intros cs' Hcs' Hn Hn';
    [done|].
  destruct Hcs' as [|c' cs' (Hne' & Hdot' & _) Hcs']; [done|].
  destruct cs as [|d cs], cs' as [|d' cs'].
  - cbn. by intros ->.
  - rewrite join_cons2. cbn. intros ->. unfold dot_free in Hdot.
    rewrite !contains_char_app in Hdot. cbn in Hdot.
    rewrite orb_true_r in Hdot. discriminate Hdot.
  - rewrite join_cons2. cbn. intros <-. unfold dot_free in Hdot'.
    rewrite !contains_char_app in Hdot'. cbn in Hdot'.
    rewrite orb_true_r in Hdot'. discriminate Hdot'.
  - rewrite !join_cons2. intros [-> H]%first_dot_inj; [|done|done].
    f_equal. by apply IH.
Qed.

Lemma plain_file_mod_name (project_root : Path) (dirs : list string) (stem : string) :
  Forall plain_component (dirs ++ [stem]) ->
  eligible project_root (dirs ++ [stem +:+ ".py"]) ->
  mod_name_of project_root (dirs ++ [stem +:+ ".py"]) = PyStr.join "." (dirs ++ [stem]).
Proof.
  intros Hplain Hel.
  assert (stem <> "") as Hne.
  { apply Forall_app in Hplain as [_ Hs]. by apply Forall_singleton in Hs as [? _]. }
  apply entry_of_py_file; [done| |done].
  eapply Forall_impl; [exact Hplain|]. by intros c (_ & _ & ?).
Qed.

(** Plain eligible files with the same dotted name are the same file. *)
Lemma plain_mod_name_inj (project_root : Path) (r r' : list string) :
  plain_file r -> plain_file r' ->
  eligible project_root r -> eligible project_root r' ->
  mod_name_of project_root r = mod_name_of project_root r' -> r = r'.
Proof.
  intros (dirs & stem & -> & Hp) (dirs' & stem' & -> & Hp') Hel Hel'.
  rewrite (plain_file_mod_name _ _ _ Hp Hel), (plain_file_mod_name _ _ _ Hp' Hel').
  intros H%join_dot_inj; try done; try by destruct dirs. 2: by destruct dirs'.
  apply app_inj_tail in H as [-> ->]. done.
Qed.

End PlainNames.

(** X10. In a project whose eligible files all have plain directory names and
    stems (non-empty, no dot, no slash), no two files derive the same dotted
    name: every eligible file finds its own note path under its dotted name,
    whatever the order of the walk. *)
Theorem plain_files_keep_their_entries (project_root : Path)
    (tree : list (list string)) (rel : list string) :
  NoDup tree ->
  (forall r, r ∈ tree -> eligible project_root r -> plain_file r) ->
  rel ∈ tree -> eligible project_root rel ->
  PyDict.get (get_internal_modules project_root tree)
    (mod_name_of project_root rel)
  = Some (note_path_of rel).
Proof.
  intros Hnd Hplain (before & after & ->)%list_elem_of_split Hel.
  apply catalog_lookup; [done|]. intros r Hr Hr_el Heq.
  assert (r = rel) as ->.
  { apply (plain_mod_name_inj project_root); try done.
    - apply Hplain; [|done]. apply elem_of_app. right. by apply list_elem_of_further.
    - apply Hplain; [|done]. apply elem_of_app. right. apply list_elem_of_here. }
  apply NoDup_app in Hnd as (_ & _ & Hnd). apply NoDup_cons in Hnd as [Hnot _].
  done.
Qed.

Lemma plain_files_keep_their_entries_witness :
  PyDict.get ex_catalog "pkg.mod" = Some "pkg/mod".
Proof.
  assert (Hvenv : forall rel, skipped ex_root rel = false ->
                              ".venv" ∉ parts (joinpath ex_root rel)).
  { intros rel [Hs _]%orb_false_elim. by apply bool_decide_eq_false in Hs. }
  assert (Hplain : forall c, c <> "" -> PyStr.contains_char "." c = false ->
                             PyStr.contains_char "/" c = false ->
                             plain_component c) by (intros; by split_and!).
  apply (plain_files_keep_their_entries ex_root ex_tree ["pkg"; "mod.py"]).
  - apply (bool_decide_unpack _). vm_compute. exact I.
  - intros r Hr Hel. unfold ex_tree in Hr.
    repeat (apply elem_of_cons in Hr as [-> | Hr]).
    + exists [], "settings". split; [reflexivity|].
      repeat constructor; by apply Hplain.
    + exists [], "main". split; [reflexivity|].
      repeat constructor; by apply Hplain.
    + destruct Hel as (_ & _ & H). vm_compute in H. discriminate H.
    + exists ["pkg"], "mod". split; [reflexivity|].
      repeat constructor; by apply Hplain.
    + by apply elem_of_nil in Hr.
  - unfold ex_tree. do 3 apply list_elem_of_further. apply list_elem_of_here.
  - split_and!; [reflexivity | by apply Hvenv | reflexivity].
Defined.

(** * Further properties of the rendering *)

Section ColorFacts.

Lemma color_map_values (key c : string) :
  FOLDER_COLOR_MAP !! key = Some c -> c ∈ folder_colors.
Proof.
  unfold FOLDER_COLOR_MAP. intros H%elem_of_list_to_map_2.
  unfold folder_colors.
  repeat (apply elem_of_cons in H as [[= _ ->] | H]; [set_unfold; tauto|]).
  by apply elem_of_nil in H.
Qed.

(** No key of the map ends in [.md]. *)
Lemma color_map_no_md (x : string) : FOLDER_COLOR_MAP !! (x +:+ ".md") = None.
Proof.
  assert (Hne : forall k, PyStr.endswith k ".md" = false -> x +:+ ".md" <> k).
  { intros k Hk <-. assert (PyStr.endswith (x +:+ ".md") ".md" = true) as H
      by (apply endswith_spec; by exists x). congruence. }
  unfold FOLDER_COLOR_MAP. rewrite !list_to_map_cons, list_to_map_nil.
  rewrite !lookup_insert_ne, lookup_empty; [done|..]; intros E; symmetry in E;
    revert E; by apply Hne.
Qed.

Lemma split_head_slash (top rest : string) :
  slash_free top -> PyStr.split_head "/" (top +:+ "/" +:+ rest) = top.
Proof.
  unfold slash_free. induction top as [|c top IH].
  - intros _. by rewrite append_nil_l, (append_cons "/" "").
  - cbn [PyStr.contains_char]. intros [Hc Htop]%orb_false_elim.
    rewrite append_cons. cbn [PyStr.split_head]. by rewrite Hc, IH.
Qed.

Lemma split_head_slash_free (s : string) :
  slash_free s -> PyStr.split_head "/" s = s.
Proof.
  unfold slash_free. induction s as [|c s IH]; [done|].
  cbn. intros [Hc Hs]%orb_false_elim. by rewrite Hc, IH.
Qed.

(** The name that [with_suffix(".md")] gives ends in [.md] and begins with a
    piece of the old name. *)
Lemma with_suffix_name_md (nm : string) :
  exists x, Pathlib.with_suffix_name nm ".md" = x +:+ ".md"
            /\ exists y, nm = x +:+ y.
Proof.
  unfold Pathlib.with_suffix_name.
  assert (Hcut : forall s pre suf,
            PyStr.rpartition_dot s = Some (pre, suf) -> s = pre +:+ suf).
  { induction s as [|c s IH]; intros pre suf; cbn; [done|].
    destruct (PyStr.rpartition_dot s) as [[p q]|].
    - intros [= <- <-]. rewrite append_cons. f_equal. by apply IH.
    - destruct (Ascii.eqb c "."); [|done]. by intros [= <- <-]. }
  destruct (PyStr.rpartition_dot nm) as [[pre suf]|] eqn:E.
  - destruct (PyStr.truthy pre && (1 <? String.length suf)).
    + exists pre. split; [done|]. exists suf. by apply Hcut.
    + exists nm. split; [done|]. exists "". by rewrite append_nil_r.
  - exists nm. split; [done|]. exists "". by rewrite append_nil_r.
Qed.

Lemma slash_free_app_l (x y : string) : slash_free (x +:+ y) -> slash_free x.
Proof.
  unfold slash_free. rewrite contains_char_app. by intros [? _]%orb_false_elim.
Qed.

End ColorFacts.

(** X11. [get_color_for_node] always answers with one of the four colours of
    the table, whatever the path. *)
Theorem get_color_for_node_range (note_rel_path : string) :
  get_color_for_node note_rel_path ∈ folder_colors.
Proof.
  unfold get_color_for_node. cbv zeta.
  destruct (FOLDER_COLOR_MAP !! _) as [c|] eqn:E; cbn.
  - by eapply color_map_values.
  - unfold folder_colors. do 3 apply list_elem_of_further. apply list_elem_of_here.
Qed.

(** X12. The colour of a note follows the top-level folder of the file: a
    file below the folder [top] gets the colour the table has for [top], or
    the default without one, and a file directly in the project root gets
    [#355c7d], the colour of [root], whatever its name. *)
Theorem node_color_follows_top_folder :
  (forall top rest,
     rest <> [] -> slash_free top -> top <> "" ->
     get_color_for_node (as_posix (with_suffix (relative (top :: rest)) ".md"))
     = default "#355c7d" (FOLDER_COLOR_MAP !! top))
  /\ (forall nm,
        slash_free nm ->
        get_color_for_node (as_posix (with_suffix (relative [nm]) ".md"))
        = "#355c7d").
Proof.
  split.
  - intros top rest Hrest Htop Hne.
    unfold get_color_for_node, with_suffix, as_posix. cbn [relative anchor comps].
    destruct rest as [|r rest]; [done|].
    change (removelast (top :: r :: rest)) with (top :: removelast (r :: rest)).
    generalize (Pathlib.with_suffix_name (name (relative (top :: r :: rest))) ".md").
    intros nm'.
    destruct (removelast (r :: rest)) as [|c cs]; cbn [app];
      rewrite append_nil_l, join_cons2, (split_head_slash _ _ Htop).
    all:     by rewrite (proj2 (truthy_nonempty top) Hne).
  - intros nm Hnm.
    unfold get_color_for_node, with_suffix, as_posix, name.
    cbn [relative anchor comps removelast app last default from_option id PyStr.join
           String.concat].
    rewrite append_nil_l.
    destruct (with_suffix_name_md nm) as (x & -> & y & ->).
    apply slash_free_app_l in Hnm.
    assert (slash_free (x +:+ ".md")) as Hfree.
    { unfold slash_free in *. rewrite contains_char_app, Hnm. done. }
    rewrite (split_head_slash_free _ Hfree).
    rewrite (truthy_app_r x ".md" eq_refl). by rewrite color_map_no_md.
Qed.

Lemma node_color_follows_top_folder_witness :
  get_color_for_node (as_posix (with_suffix (relative ["bots"; "trade"; "run.py"]) ".md"))
  = "#f67280"
  /\ get_color_for_node (as_posix (with_suffix (relative ["utils.py"]) ".md"))
     = "#355c7d".
Proof.
  destruct node_color_follows_top_folder as [Hfolder Hroot]. split.
  - exact (Hfolder "bots" ["trade"; "run.py"] ltac:(discriminate) eq_refl
             ltac:(discriminate)).
  - exact (Hroot "utils.py" eq_refl).
Defined.

Section NoteFacts.





End NoteFacts.


(** X14. When the project root or the vault is not a directory the script
    stops with [SystemExit] before anything is printed or written; the
    project root is tested first, so its message is the one given when both
    are missing. *)
Theorem main_requires_directories
    (read_text : Path -> outcome string) (ast_parse : string -> string -> outcome ast)
    (is_dir : Path -> bool) (project_root vault_root : Path)
    (tree : list (list string)) (w : world) :
  is_dir project_root = false \/ is_dir vault_root = false ->
  exists shown,
    main read_text ast_parse is_dir project_root vault_root tree w
    = (Raised (SystemExit (shown
                           +:+ as_posix (if is_dir project_root then vault_root
                                         else project_root))), w)
    /\ isinstance_Exception (SystemExit shown) = false.
Proof.
  intros H. unfold main, raise.
  destruct (is_dir project_root) eqn:Hp; cbn.
  - destruct H as [H | ->]; [done|]. cbn. by eexists.
  - by eexists.
Qed.

Lemma main_requires_directories_witness :
  exists shown,
    main ex_read_text ex_ast_parse ex_is_dir_vault_only ex_root ex_vault ex_tree
      ex_world
    = (Raised (SystemExit (shown +:+ "/home/dev/proj")), ex_world)
    /\ isinstance_Exception (SystemExit shown) = false.
Proof.
  apply (main_requires_directories ex_read_text ex_ast_parse ex_is_dir_vault_only
           ex_root ex_vault ex_tree ex_world).
  left. reflexivity.
Defined.

(** ** The notes a run leaves behind *)

Section NotesWritten.

Variable read_text : Path -> outcome string.
Variable ast_parse : string -> string -> outcome ast.
Variables project_root vault_root : Path.
Variable catalog : dict.



End NotesWritten.



(** ** Links and the notes they name *)

Section LinkTargets.







End LinkTargets.


